(** * simglucose: the type-1 diabetes patient (simglucose/patient/t1dpatient.py)

    A shallow embedding of the class [T1DPatient]: the meal buffer
    [_announce_meal], the eating-episode bookkeeping of [step], the
    lifecycle operation [reset] and the right-hand side [model] of the
    18-state glucose/insulin/glucagon system.

    Numbers.  The program computes with Python/numpy numbers (ints and
    binary64 floats).  They are modelled by the real numbers [R]: every
    arithmetic operation is exact, there is no rounding, overflow or NaN.
    Comparisons are decided with the [Rlt_dec] family, so every branch of
    the program is a branch of the embedding.

    The integrator.  [scipy.integrate.ode] with the [dopri5] method is not
    part of the repository; it is a section variable [dopri5] of which
    nothing is assumed.  Logging has no effect on the state and is left
    out. *)

From Stdlib Require Import Reals Lra List Bool String.
Import ListNotations.
Open Scope R_scope.

(** ** Python and numpy primitives *)

(** Comparisons as booleans. *)
Definition gt_b (a b : R) : bool := if Rgt_dec a b then true else false.
Definition ge_b (a b : R) : bool := if Rge_dec a b then true else false.
Definition lt_b (a b : R) : bool := if Rlt_dec a b then true else false.
Definition le_b (a b : R) : bool := if Rle_dec a b then true else false.

(** The builtin [max(a, b)]: the first argument unless the second is
    strictly greater.  [min(a, b)]: the first unless the second is
    strictly smaller. *)
Definition py_max (a b : R) : R := if gt_b b a then b else a.
Definition py_min (a b : R) : R := if lt_b b a then b else a.

(** A numpy boolean used as a factor: [True] is 1 and [False] is 0. *)
Definition bool_to_R (c : bool) : R := if c then 1 else 0.

(** [np.tanh], [np.log] and the float power [**].  [ln] and [Rpower]
    agree with numpy on positive arguments. *)
Definition np_tanh : R -> R := tanh.
Definition np_log : R -> R := ln.
Definition np_pow : R -> R -> R := Rpower.

(** ** Data *)

(** [Action = namedtuple("patient_action", ['CHO', 'insulin'])] *)
Record Action : Type := mkAction { CHO : R; insulin : R }.

(** [action._replace(CHO=v)] *)
Definition Action_replace_CHO (a : Action) (v : R) : Action :=
  {| CHO := v; insulin := insulin a |}.

(** [Observation = namedtuple("observation", ['Gsub'])] *)
Record Observation : Type := mkObservation { Gsub : R }.

(** The parameter row of one patient: the columns [model] and
    [observation] read. *)
Module Params.
Record t : Type := mk {
  Name : string;
  iloc_1_19 : list R;   (* the default initial state, columns 1 to 18 *)
  BW : R; u2ss : R;
  kmax : R; kmin : R; kabs : R; b : R; d : R; f : R;
  kp1 : R; kp2 : R; kp3 : R; kcounter : R;
  Fsnc : R; ke1 : R; ke2 : R; k1 : R; k2 : R;
  Vg : R; Gth : R; Gb : R; r1 : R; r2 : R; r3 : R;
  Vm0 : R; Vmx : R; Km0 : R;
  m1 : R; m2 : R; m4 : R; m30 : R; ka1 : R; ka2 : R; kd : R;
  Vi : R; Ib : R; p2u : R; ki : R; ksc : R;
  kGSRd : R; kGSRs : R; k01g : R; kXGn : R; Gnb : R; Ith : R; SRb : R;
  SQgluc_k1 : R; SQgluc_kc1 : R; SQgluc_k2 : R
}.
End Params.

(** The part of a [scipy.integrate.ode] object the patient reads and
    writes: the parameters handed to the right-hand side, the state
    vector [y], the time [t] and the success flag of the integrator. *)
Record ode : Type := mkOde {
  ode_f_params : option (Action * Params.t * R * R);
  ode_y : list R;
  ode_t : R;
  ode_success : bool
}.

Definition set_f_params (args : Action * Params.t * R * R) (o : ode) : ode :=
  {| ode_f_params := Some args; ode_y := ode_y o; ode_t := ode_t o;
     ode_success := ode_success o |}.

(** [ode.successful()] *)
Definition successful (o : ode) : bool := ode_success o.

(** [x[i]] on a state vector; the integrator always passes 18 entries. *)
Definition idx (x : list R) (i : nat) : R := nth i x 0.

(** What a call does to its caller: it returns, or an exception
    propagates.  The object keeps every mutation made before the raise. *)
Inductive outcome : Type := Returned | Raised.

Module T1DPatient.

Definition SAMPLE_TIME : R := 1.
Definition EAT_RATE : R := 5.

(** The instance attributes. *)
Record self : Type := mk {
  _params : Params.t;
  init_state : list R;
  t0 : R;
  _last_Qsto : R;
  _last_foodtaken : R;
  name : string;
  _odesolver : ode;
  _last_action : Action;
  is_eating : bool;
  planned_meal : R
}.

Definition set_last_Qsto (v : R) (s : self) : self :=
  mk (_params s) (init_state s) (t0 s) v (_last_foodtaken s) (name s)
     (_odesolver s) (_last_action s) (is_eating s) (planned_meal s).
Definition set_last_foodtaken (v : R) (s : self) : self :=
  mk (_params s) (init_state s) (t0 s) (_last_Qsto s) v (name s)
     (_odesolver s) (_last_action s) (is_eating s) (planned_meal s).
Definition set_name (v : string) (s : self) : self :=
  mk (_params s) (init_state s) (t0 s) (_last_Qsto s) (_last_foodtaken s) v
     (_odesolver s) (_last_action s) (is_eating s) (planned_meal s).
Definition set_odesolver (v : ode) (s : self) : self :=
  mk (_params s) (init_state s) (t0 s) (_last_Qsto s) (_last_foodtaken s)
     (name s) v (_last_action s) (is_eating s) (planned_meal s).
Definition set_last_action (v : Action) (s : self) : self :=
  mk (_params s) (init_state s) (t0 s) (_last_Qsto s) (_last_foodtaken s)
     (name s) (_odesolver s) v (is_eating s) (planned_meal s).
Definition set_is_eating (v : bool) (s : self) : self :=
  mk (_params s) (init_state s) (t0 s) (_last_Qsto s) (_last_foodtaken s)
     (name s) (_odesolver s) (_last_action s) v (planned_meal s).
Definition set_planned_meal (v : R) (s : self) : self :=
  mk (_params s) (init_state s) (t0 s) (_last_Qsto s) (_last_foodtaken s)
     (name s) (_odesolver s) (_last_action s) (is_eating s) v.

(** The properties [state], [t] and [sample_time]. *)
Definition state (s : self) : list R := ode_y (_odesolver s).
Definition t (s : self) : R := ode_t (_odesolver s).
Definition sample_time (s : self) : R := SAMPLE_TIME.

(** [_announce_meal(meal)]: returns the amount to eat now and the
    updated object. *)
Definition _announce_meal (meal : R) (s : self) : R * self :=
  let s := set_planned_meal (planned_meal s + meal) s in
  if gt_b (planned_meal s) 0 then
    let to_eat := py_min EAT_RATE (planned_meal s) in
    let s := set_planned_meal (planned_meal s - to_eat) s in
    let s := set_planned_meal (py_max 0 (planned_meal s)) s in
    (to_eat, s)
  else
    (0, s).

(** The named intermediate values of the body of [model], kept so that
    statements can refer to them: [raw] holds, per index, the value
    first assigned to [dxdt[i]], and [dxdt] the vector returned. *)
Record locals : Type := mkLocals {
  qsto : R; Dbar : R; kgut : R;
  Rat : R; EGPt : R; Uiit : R; Et : R;
  Gt : R; fG : R; risk : R; Uidt : R; It : R;
  SRd : R; SRt : R;
  raw : list R;
  dxdt : list R
}.

(** The body of the static method
    [model(t, x, action, params, last_Qsto, last_foodtaken)], statement
    by statement. *)
Definition model_locals (t : R) (x : list R) (action : Action)
    (params : Params.t) (last_Qsto last_foodtaken : R) : locals :=
  let p := params in
  let d := CHO action * 1000 in
  let insulin := insulin action * 6000 / Params.BW p in
  let basal := Params.u2ss p * Params.BW p / 6000 in
  (* Glucose in the stomach *)
  let qsto := idx x 0 + idx x 1 in
  let Dbar := last_Qsto + last_foodtaken in
  (* Stomach solid *)
  let dxdt0 := - Params.kmax p * idx x 0 + d in
  let kgut :=
    if gt_b Dbar 0 then
      let aa := 5 / 2 / (1 - Params.b p) / Dbar in
      let cc := 5 / 2 / Params.d p / Dbar in
      Params.kmin p + (Params.kmax p - Params.kmin p) / 2 *
        (np_tanh (aa * (qsto - Params.b p * Dbar))
         - np_tanh (cc * (qsto - Params.d p * Dbar)) + 2)
    else Params.kmax p in
  (* stomach liquid *)
  let dxdt1 := Params.kmax p * idx x 0 - idx x 1 * kgut in
  (* intestine *)
  let dxdt2 := kgut * idx x 1 - Params.kabs p * idx x 2 in
  (* Rate of appearance *)
  let Rat := Params.f p * Params.kabs p * idx x 2 / Params.BW p in
  (* Glucose Production *)
  let EGPt := Params.kp1 p - Params.kp2 p * idx x 3
              - Params.kp3 p * idx x 8 + Params.kcounter p * idx x 14 in
  (* Glucose Utilization *)
  let Uiit := Params.Fsnc p in
  (* renal excretion *)
  let Et := if gt_b (idx x 3) (Params.ke2 p)
            then Params.ke1 p * (idx x 3 - Params.ke2 p) else 0 in
  (* glucose kinetics *)
  let raw3 := py_max EGPt 0 + Rat - Uiit - Et
              - Params.k1 p * idx x 3 + Params.k2 p * idx x 4 in
  let dxdt3 := bool_to_R (ge_b (idx x 3) 0) * raw3 in
  let Gt := idx x 3 / Params.Vg p in
  let fG := if lt_b Gt (Params.Gth p)
            then np_log (np_pow (Params.Gth p / Params.Gb p) (Params.r1 p))
            else np_log (np_pow (Gt / Params.Gb p) (Params.r1 p)) in
  let risk := if gt_b Gt (Params.Gb p) then 0 else 10 * fG ^ 2 in
  let Vmt := Params.Vm0 p + Params.Vmx p * idx x 6 in
  let Kmt := Params.Km0 p in
  let Uidt := Vmt * (1 + Params.r3 p * risk) * idx x 4 / (Kmt + idx x 4) in
  let raw4 := - Uidt + Params.k1 p * idx x 3 - Params.k2 p * idx x 4 in
  let dxdt4 := bool_to_R (ge_b (idx x 4) 0) * raw4 in
  (* insulin kinetics *)
  let raw5 := - (Params.m2 p + Params.m4 p) * idx x 5 + Params.m1 p * idx x 9
              + Params.ka1 p * idx x 10 + Params.ka2 p * idx x 11 in
  let It := idx x 5 / Params.Vi p in
  let dxdt5 := bool_to_R (ge_b (idx x 5) 0) * raw5 in
  (* insulin action on glucose utilization *)
  let dxdt6 := - Params.p2u p * idx x 6 + Params.p2u p * (It - Params.Ib p) in
  (* insulin action on production *)
  let dxdt7 := - Params.ki p * (idx x 7 - It) in
  let dxdt8 := - Params.ki p * (idx x 8 - idx x 7) in
  (* insulin in the liver *)
  let raw9 := - (Params.m1 p + Params.m30 p) * idx x 9
              + Params.m2 p * idx x 5 in
  let dxdt9 := bool_to_R (ge_b (idx x 9) 0) * raw9 in
  (* subcutaneous insulin kinetics *)
  let raw10 := insulin - (Params.ka1 p + Params.kd p) * idx x 10 in
  let dxdt10 := bool_to_R (ge_b (idx x 10) 0) * raw10 in
  let raw11 := Params.kd p * idx x 10 - Params.ka2 p * idx x 11 in
  let dxdt11 := bool_to_R (ge_b (idx x 11) 0) * raw11 in
  (* subcutaneous glucose *)
  let raw12 := - Params.ksc p * idx x 12 + Params.ksc p * idx x 3 in
  let dxdt12 := bool_to_R (ge_b (idx x 12) 0) * raw12 in
  (* Glucagon kinetics and secretion *)
  let SRd := Params.kGSRd p * py_max (- dxdt3 / Params.Vg p) 0 in
  let SRt := idx x 15 + SRd in
  let raw13 := - Params.k01g p * idx x 13 + SRt in
  let dxdt13 := bool_to_R (ge_b (idx x 13) 0) * raw13 in
  (* Endogenous glucose production *)
  let dxdt14 := - Params.kXGn p * idx x 14
                + Params.kXGn p * py_max (idx x 13 - Params.Gnb p) 0 in
  let raw15 :=
    if ge_b It (Params.Ith p) then
      - Params.r2 p *
        (idx x 15 - py_max (Params.kGSRs p * (Params.Gth p - Gt)
                            / (It - Params.Ith p + 1) + Params.SRb p) 0)
    else
      - Params.r2 p *
        (idx x 15 - py_max (Params.kGSRs p * (Params.Gth p - Gt)
                            + Params.SRb p) 0) in
  let dxdt15 := bool_to_R (ge_b (idx x 15) 0) * raw15 in
  (* subcutaneous glucagon kinetic *)
  let raw16 := - (Params.SQgluc_k1 p + Params.SQgluc_kc1 p) * idx x 16 in
  let dxdt16 := bool_to_R (ge_b (idx x 16) 0) * raw16 in
  let raw17 := Params.SQgluc_k1 p * idx x 16
               - Params.SQgluc_k2 p * idx x 17 in
  let dxdt17 := bool_to_R (ge_b (idx x 17) 0) * raw17 in
  {| qsto := qsto; Dbar := Dbar; kgut := kgut;
     Rat := Rat; EGPt := EGPt; Uiit := Uiit; Et := Et;
     Gt := Gt; fG := fG; risk := risk; Uidt := Uidt; It := It;
     SRd := SRd; SRt := SRt;
     raw := [dxdt0; dxdt1; dxdt2; raw3; raw4; raw5; dxdt6; dxdt7; dxdt8;
             raw9; raw10; raw11; raw12; raw13; dxdt14; raw15; raw16; raw17];
     dxdt := [dxdt0; dxdt1; dxdt2; dxdt3; dxdt4; dxdt5; dxdt6; dxdt7; dxdt8;
              dxdt9; dxdt10; dxdt11; dxdt12; dxdt13; dxdt14; dxdt15;
              dxdt16; dxdt17] |}.

(** [model] returns the vector [dxdt]. *)
Definition model (t : R) (x : list R) (action : Action)
    (params : Params.t) (last_Qsto last_foodtaken : R) : list R :=
  dxdt (model_locals t x action params last_Qsto last_foodtaken).

(** The property [observation]. *)
Definition observation (s : self) : Observation :=
  let GM := idx (state s) 12 in
  {| Gsub := GM / Params.Vg (_params s) |}.

(** [reset()]: a fresh integrator over [model] at the initial state and
    start time, and the eating bookkeeping cleared. *)
Definition reset (s : self) : self :=
  let s := set_last_Qsto (idx (init_state s) 0 + idx (init_state s) 1) s in
  let s := set_last_foodtaken 0 s in
  let s := set_name (Params.Name (_params s)) s in
  let s := set_odesolver
             {| ode_f_params := None; ode_y := init_state s;
                ode_t := t0 s; ode_success := true |} s in
  let s := set_last_action {| CHO := 0; insulin := 0 |} s in
  let s := set_is_eating false s in
  let s := set_planned_meal 0 s in
  s.

(** [__init__(params, init_state=None, t0=0)]: stores its arguments and
    resets.  The attributes [reset] assigns do not exist before it; the
    values given to them here are overwritten. *)
Definition __init__ (params : Params.t) (init_state : option (list R))
    (t0 : R) : self :=
  let init_state := match init_state with
                    | None => Params.iloc_1_19 params
                    | Some v => v
                    end in
  reset (mk params init_state t0 0 0 EmptyString
            (mkOde None [] 0 true) (mkAction 0 0) false 0).

Section Stepping.

(** The [dopri5] integrator: from a right-hand side, a state, a time
    and a target time to the state and time reached and whether the
    integration succeeded. *)
Variable dopri5 :
  (R -> list R -> list R) -> list R -> R -> R -> list R * R * bool.

(** [ode.integrate(t1)]: runs the integrator over [model] with the
    stored parameters; a failure clears the success flag.  Without
    stored parameters the call of [model] raises. *)
Definition integrate (o : ode) (t1 : R) : option ode :=
  match ode_f_params o with
  | Some (action, params, last_Qsto, last_foodtaken) =>
      let '(y, t, ok) :=
        dopri5 (fun t x => model t x action params last_Qsto last_foodtaken)
               (ode_y o) (ode_t o) t1 in
      Some {| ode_f_params := ode_f_params o; ode_y := y; ode_t := t;
              ode_success := ode_success o && ok |}
  | None => None
  end.

(** [step(action)] *)
Definition step (action : Action) (s : self) : outcome * self :=
  (* Convert announcing meal to the meal amount to eat at the moment *)
  let '(to_eat, s) := _announce_meal (CHO action) s in
  let action := Action_replace_CHO action to_eat in
  (* Detect eating or not and update last digestion amount *)
  let s :=
    if gt_b (CHO action) 0 && le_b (CHO (_last_action s)) 0 then
      let s := set_last_Qsto (idx (state s) 0 + idx (state s) 1) s in
      let s := set_last_foodtaken 0 s in
      set_is_eating true s
    else s in
  let s :=
    if is_eating s
    then set_last_foodtaken (_last_foodtaken s + CHO action) s
    else s in
  (* Detect eating ended *)
  let s :=
    if le_b (CHO action) 0 && gt_b (CHO (_last_action s)) 0
    then set_is_eating false s
    else s in
  (* Update last input *)
  let s := set_last_action action s in
  (* ODE solver *)
  let s := set_odesolver
             (set_f_params
                (action, _params s, _last_Qsto s, _last_foodtaken s)
                (_odesolver s)) s in
  if successful (_odesolver s) then
    match integrate (_odesolver s) (ode_t (_odesolver s) + sample_time s) with
    | Some o => (Returned, set_odesolver o s)
    | None => (Raised, s)
    end
  else
    (Raised, s).

(** The object after a call of [step], whatever its outcome. *)
Definition after_step (action : Action) (s : self) : self :=
  snd (step action s).

(** A caller that steps through a list of actions, as the loop of the
    module's demo does, and records after each call the amount eaten
    (the CHO of the stored action) and the flag [is_eating]. *)
Fixpoint run (actions : list Action) (s : self) : list (R * bool) * self :=
  match actions with
  | [] => ([], s)
  | a :: rest =>
      let s1 := after_step a s in
      let '(tr, s2) := run rest s1 in
      ((CHO (_last_action s1), is_eating s1) :: tr, s2)
  end.

(** The objects a caller can hold: constructed, reset, or stepped. *)
Inductive reachable : self -> Prop :=
| reachable_init params init_state t0 :
    reachable (__init__ params init_state t0)
| reachable_reset s : reachable s -> reachable (reset s)
| reachable_step action s : reachable s -> reachable (after_step action s).

End Stepping.

End T1DPatient.


Import T1DPatient.

(** ** Callers and reference descriptions used in the statements *)

(** The sum of a list of amounts. *)
Definition Rsum (l : list R) : R := fold_right Rplus 0 l.

(** Successive calls of [_announce_meal]: the amounts returned, in order,
    and the object after the last call. *)
Fixpoint announce_all (amounts : list R) (s : self) : list R * self :=
  match amounts with
  | [] => ([], s)
  | m :: rest =>
      let '(to_eat, s1) := _announce_meal m s in
      let '(eaten, s2) := announce_all rest s1 in
      (to_eat :: eaten, s2)
  end.

(** The eating-episode tracker as a two-state machine: from the state,
    the amount eaten at the previous step and the amount eaten now. *)
Inductive episode : Type := NOT_EATING | EATING.

Definition episode_of (flag : bool) : episode :=
  if flag then EATING else NOT_EATING.

Definition episode_flag (e : episode) : bool :=
  match e with EATING => true | NOT_EATING => false end.

Definition episode_next (e : episode) (previous now : R) : episode :=
  match e with
  | NOT_EATING => if gt_b now 0 && le_b previous 0 then EATING else NOT_EATING
  | EATING => if le_b now 0 && gt_b previous 0 then NOT_EATING else EATING
  end.

(** The flags the machine shows along a sequence of eaten amounts. *)
Fixpoint episode_flags (e : episode) (previous : R) (eaten : list R)
  : list bool :=
  match eaten with
  | [] => []
  | now :: rest =>
      let e1 := episode_next e previous now in
      episode_flag e1 :: episode_flags e1 now rest
  end.

(** The compartments the specification names as non-negative, and the
    indices whose derivative [model] multiplies by the indicator. *)
Definition named_nonnegative : list nat :=
  [0; 1; 2; 3; 4; 5; 9; 10; 11; 12; 13; 15; 16; 17]%nat.
Definition clamped : list nat :=
  [3; 4; 5; 9; 10; 11; 12; 13; 15; 16; 17]%nat.
Definition unclamped : list nat := [0; 1; 2; 6; 7; 8; 14]%nat.

(** The fields of the object a caller can observe. *)
Definition same_observable (s1 s2 : self) : Prop :=
  state s1 = state s2 /\ t s1 = t s2 /\
  planned_meal s1 = planned_meal s2 /\ is_eating s1 = is_eating s2 /\
  _last_Qsto s1 = _last_Qsto s2 /\ _last_foodtaken s1 = _last_foodtaken s2 /\
  _last_action s1 = _last_action s2.

(** The eating bookkeeping of the object. *)
Definition same_bookkeeping (s1 s2 : self) : Prop :=
  planned_meal s1 = planned_meal s2 /\ is_eating s1 = is_eating s2 /\
  _last_Qsto s1 = _last_Qsto s2 /\ _last_foodtaken s1 = _last_foodtaken s2 /\
  _last_action s1 = _last_action s2.

(** The object with the success flag of its integrator set. *)
Definition with_success (flag : bool) (s : self) : self :=
  set_odesolver
    {| ode_f_params := ode_f_params (_odesolver s);
       ode_y := ode_y (_odesolver s); ode_t := ode_t (_odesolver s);
       ode_success := flag |} s.

(** A parameter row for concrete inputs: every coefficient is 1 except
    [kmin = 0], [b = 1/2] and [d = 9/10]. *)
Definition params_ex : Params.t :=
  {| Params.Name := "example"; Params.iloc_1_19 := repeat 0 18;
     Params.BW := 1; Params.u2ss := 1;
     Params.kmax := 1; Params.kmin := 0; Params.kabs := 1;
     Params.b := 1 / 2; Params.d := 9 / 10; Params.f := 1;
     Params.kp1 := 1; Params.kp2 := 1; Params.kp3 := 1; Params.kcounter := 1;
     Params.Fsnc := 1; Params.ke1 := 1; Params.ke2 := 1;
     Params.k1 := 1; Params.k2 := 1;
     Params.Vg := 1; Params.Gth := 1; Params.Gb := 1;
     Params.r1 := 1; Params.r2 := 1; Params.r3 := 1;
     Params.Vm0 := 1; Params.Vmx := 1; Params.Km0 := 1;
     Params.m1 := 1; Params.m2 := 1; Params.m4 := 1; Params.m30 := 1;
     Params.ka1 := 1; Params.ka2 := 1; Params.kd := 1;
     Params.Vi := 1; Params.Ib := 1; Params.p2u := 1; Params.ki := 1;
     Params.ksc := 1;
     Params.kGSRd := 1; Params.kGSRs := 1; Params.k01g := 1; Params.kXGn := 1;
     Params.Gnb := 1; Params.Ith := 1; Params.SRb := 1;
     Params.SQgluc_k1 := 1; Params.SQgluc_kc1 := 1; Params.SQgluc_k2 := 1 |}.

(** A freshly constructed patient with the default initial state. *)
Definition patient_ex : self := __init__ params_ex None 0.

(** An integrator that reaches the target time with the state unchanged,
    and one that reports a failure on every call. *)
Definition dopri5_idle (f : R -> list R -> list R) (y : list R) (t t1 : R)
  : list R * R * bool := (y, t1, true).
Definition dopri5_failing (f : R -> list R -> list R) (y : list R) (t t1 : R)
  : list R * R * bool := (y, t, false).

(** ** Comparisons, [max] and [min] *)

Lemma gt_b_true a b : a > b -> gt_b a b = true.
Proof. intro H. unfold gt_b. destruct (Rgt_dec a b); [reflexivity | lra]. Qed.

Lemma gt_b_false a b : a <= b -> gt_b a b = false.
Proof. intro H. unfold gt_b. destruct (Rgt_dec a b); [lra | reflexivity]. Qed.

Lemma ge_b_true a b : a >= b -> ge_b a b = true.
Proof. intro H. unfold ge_b. destruct (Rge_dec a b); [reflexivity | lra]. Qed.

Lemma ge_b_false a b : a < b -> ge_b a b = false.
Proof. intro H. unfold ge_b. destruct (Rge_dec a b); [lra | reflexivity]. Qed.

Lemma lt_b_true a b : a < b -> lt_b a b = true.
Proof. intro H. unfold lt_b. destruct (Rlt_dec a b); [reflexivity | lra]. Qed.

Lemma lt_b_false a b : a >= b -> lt_b a b = false.
Proof. intro H. unfold lt_b. destruct (Rlt_dec a b); [lra | reflexivity]. Qed.

Lemma le_b_true a b : a <= b -> le_b a b = true.
Proof. intro H. unfold le_b. destruct (Rle_dec a b); [reflexivity | lra]. Qed.

Lemma le_b_false a b : a > b -> le_b a b = false.
Proof. intro H. unfold le_b. destruct (Rle_dec a b); [lra | reflexivity]. Qed.

Lemma gt_b_spec a b : reflect (a > b) (gt_b a b).
Proof. unfold gt_b. destruct (Rgt_dec a b); constructor; assumption. Qed.

Lemma le_b_spec a b : reflect (a <= b) (le_b a b).
Proof. unfold le_b. destruct (Rle_dec a b); constructor; assumption. Qed.

Lemma le_b_negb_gt_b a b : le_b a b = negb (gt_b a b).
Proof.
  destruct (gt_b_spec a b) as [H | H].
  - apply le_b_false; exact H.
  - apply le_b_true; lra.
Qed.

(** Decides the comparisons of a goal whose reals are numerals. *)
Ltac decide_cmp :=
  repeat first
    [ rewrite gt_b_true by lra | rewrite gt_b_false by lra
    | rewrite ge_b_true by lra | rewrite ge_b_false by lra
    | rewrite lt_b_true by lra | rewrite lt_b_false by lra
    | rewrite le_b_true by lra | rewrite le_b_false by lra ].

Lemma py_max_Rmax a b : py_max a b = Rmax a b.
Proof.
  unfold py_max. destruct (gt_b_spec b a) as [H | H].
  - symmetry; apply Rmax_right; lra.
  - symmetry; apply Rmax_left; lra.
Qed.

Lemma py_min_Rmin a b : py_min a b = Rmin a b.
Proof.
  unfold py_min, lt_b. destruct (Rlt_dec b a) as [H | H].
  - symmetry; apply Rmin_right; lra.
  - symmetry; apply Rmin_left; lra.
Qed.

(** ** The meal buffer *)

(** [_announce_meal] touches no field but [planned_meal]. *)
Lemma announce_meal_frame meal s :
  let s' := snd (_announce_meal meal s) in
  _params s' = _params s /\ init_state s' = init_state s /\ t0 s' = t0 s /\
  _last_Qsto s' = _last_Qsto s /\ _last_foodtaken s' = _last_foodtaken s /\
  name s' = name s /\ _odesolver s' = _odesolver s /\
  _last_action s' = _last_action s /\ is_eating s' = is_eating s.
Proof.
  unfold _announce_meal; cbn.
  destruct (gt_b (planned_meal s + meal) 0); cbn; repeat split.
Qed.

(** The amount returned and the backlog left, as functions of the backlog
    after the announcement. *)
Lemma announce_meal_eq meal s :
  let backlog := planned_meal s + meal in
  fst (_announce_meal meal s) =
    (if gt_b backlog 0 then Rmin EAT_RATE backlog else 0) /\
  planned_meal (snd (_announce_meal meal s)) =
    (if gt_b backlog 0 then Rmax 0 (backlog - Rmin EAT_RATE backlog)
     else backlog).
Proof.
  unfold _announce_meal; cbn.
  destruct (gt_b (planned_meal s + meal) 0); cbn.
  - rewrite py_max_Rmax, py_min_Rmin. split; reflexivity.
  - split; reflexivity.
Qed.

(** What is eaten and what stays queued add up to the backlog plus the
    announcement. *)
Lemma announce_meal_balance meal s :
  fst (_announce_meal meal s) + planned_meal (snd (_announce_meal meal s))
  = planned_meal s + meal.
Proof.
  destruct (announce_meal_eq meal s) as [-> ->]. cbv zeta.
  destruct (gt_b_spec (planned_meal s + meal) 0) as [H | H]; [| lra].
  unfold EAT_RATE, Rmax, Rmin.
  destruct (Rle_dec 5 (planned_meal s + meal));
    destruct (Rle_dec 0 _); lra.
Qed.

(** C4.  For every non-negative announced amount and every backlog,
    [_announce_meal] works on the backlog plus the amount: when that is
    positive it returns the smaller of [EAT_RATE] and the backlog and leaves
    the backlog less the returned amount, floored at 0; when it is not
    positive it returns 0.  Announcing 0 on a positive backlog returns a
    positive amount. *)
Theorem announce_meal_behaviour (s : self) (amount : R) :
  0 <= amount ->
  let backlog := planned_meal s + amount in
  let to_eat := fst (_announce_meal amount s) in
  let s' := snd (_announce_meal amount s) in
  (backlog > 0 ->
     to_eat = Rmin EAT_RATE backlog /\
     planned_meal s' = Rmax 0 (backlog - to_eat)) /\
  (backlog <= 0 -> to_eat = 0) /\
  (amount = 0 -> planned_meal s > 0 -> to_eat > 0).
Proof.
  intros Hamount backlog to_eat s'.
  destruct (announce_meal_eq amount s) as [Heat Hleft].
  fold backlog in Heat, Hleft. fold to_eat in Heat. fold s' in Hleft.
  split; [| split].
  - intro H. rewrite Hleft, Heat, gt_b_true by exact H. split; reflexivity.
  - intro H. rewrite Heat, gt_b_false by exact H. reflexivity.
  - intros H0 Hpos. rewrite Heat, gt_b_true by (unfold backlog; lra).
    unfold Rmin, EAT_RATE. destruct (Rle_dec 5 backlog); unfold backlog; lra.
Qed.

Lemma announce_meal_behaviour_witness :
  0 <= 0 /\
  let s := set_planned_meal 8 patient_ex in
  let backlog := planned_meal s + 0 in
  let to_eat := fst (_announce_meal 0 s) in
  let s' := snd (_announce_meal 0 s) in
  (backlog > 0 ->
     to_eat = Rmin EAT_RATE backlog /\
     planned_meal s' = Rmax 0 (backlog - to_eat)) /\
  (backlog <= 0 -> to_eat = 0) /\
  (0 = 0 -> planned_meal s > 0 -> to_eat > 0).
Proof.
  split; [lra | apply (announce_meal_behaviour (set_planned_meal 8 patient_ex) 0); lra].
Defined.

Lemma announce_all_balance amounts : forall s,
  Rsum (fst (announce_all amounts s)) + planned_meal (snd (announce_all amounts s))
  = planned_meal s + Rsum amounts.
Proof.
  induction amounts as [| m rest IH]; intro s; cbn [announce_all].
  - unfold Rsum; cbn. lra.
  - pose proof (announce_meal_balance m s) as Hb.
    destruct (_announce_meal m s) as [to_eat s1]; cbn [fst snd] in Hb.
    specialize (IH s1).
    destruct (announce_all rest s1) as [eaten s2].
    unfold Rsum in *; cbn [fst snd fold_right] in *. lra.
Qed.

(** C5.  From a zero backlog, over any finite sequence of non-negative
    announcements, the amounts returned by the successive calls of
    [_announce_meal] sum to the total announced less the backlog left after
    the last call. *)
Theorem announce_meal_conservation (s : self) (amounts : list R) :
  planned_meal s = 0 ->
  Forall (fun m => 0 <= m) amounts ->
  Rsum (fst (announce_all amounts s))
  = Rsum amounts - planned_meal (snd (announce_all amounts s)).
Proof.
  intros Hzero _. pose proof (announce_all_balance amounts s). lra.
Qed.

Lemma announce_meal_conservation_witness :
  planned_meal patient_ex = 0 /\
  Forall (fun m => 0 <= m) [80; 0; 3] /\
  Rsum (fst (announce_all [80; 0; 3] patient_ex))
  = Rsum [80; 0; 3] - planned_meal (snd (announce_all [80; 0; 3] patient_ex)).
Proof.
  assert (Hz : planned_meal patient_ex = 0) by reflexivity.
  assert (Hpos : Forall (fun m => 0 <= m) [80; 0; 3])
    by (repeat constructor; lra).
  split; [exact Hz | split; [exact Hpos |]].
  apply (announce_meal_conservation patient_ex [80; 0; 3] Hz Hpos).
Defined.

(** The backlog after a call is non-negative exactly when the backlog plus
    the announcement is. *)
Lemma announce_meal_nonneg_iff meal s :
  0 <= planned_meal (snd (_announce_meal meal s)) <-> 0 <= planned_meal s + meal.
Proof.
  destruct (announce_meal_eq meal s) as [_ ->]. cbv zeta.
  destruct (gt_b_spec (planned_meal s + meal) 0) as [H | H].
  - split; intro; [lra | apply Rmax_l].
  - tauto.
Qed.

Lemma announce_all_nonneg amounts : forall s,
  0 <= planned_meal s ->
  Forall (fun m => 0 <= m) amounts ->
  0 <= planned_meal (snd (announce_all amounts s)).
Proof.
  induction amounts as [| m rest IH]; intros s Hs Hall; cbn.
  - exact Hs.
  - inversion Hall as [| ? ? Hm Hrest]; subst.
    pose proof (proj2 (announce_meal_nonneg_iff m s)) as Hstep.
    destruct (_announce_meal m s) as [to_eat s1]; cbn in Hstep.
    specialize (IH s1 (Hstep ltac:(lra)) Hrest).
    destruct (announce_all rest s1) as [eaten s2]; exact IH.
Qed.

(** C7, as the code has it.  The backlog is 0 after [reset], and it is
    non-negative after every further call of [_announce_meal] as long as
    the announced amounts are non-negative. *)
Theorem planned_meal_nonneg (s : self) (amounts : list R) :
  Forall (fun m => 0 <= m) amounts ->
  planned_meal (reset s) = 0 /\
  0 <= planned_meal (snd (announce_all amounts (reset s))).
Proof.
  intro Hall. split; [reflexivity |].
  apply announce_all_nonneg; [cbn; lra | exact Hall].
Qed.

Lemma planned_meal_nonneg_witness :
  Forall (fun m => 0 <= m) [80; 0; 3] /\
  planned_meal (reset patient_ex) = 0 /\
  0 <= planned_meal (snd (announce_all [80; 0; 3] (reset patient_ex))).
Proof.
  assert (Hpos : Forall (fun m => 0 <= m) [80; 0; 3])
    by (repeat constructor; lra).
  split; [exact Hpos | apply (planned_meal_nonneg patient_ex [80; 0; 3] Hpos)].
Defined.

(** C7 as stated fails: announcing a negative amount after [reset] leaves
    a negative backlog, since only the positive branch floors it. *)
Lemma planned_meal_negative_after_announce :
  ~ (forall (s : self) (amount : R),
       0 <= planned_meal (reset s) /\
       0 <= planned_meal (snd (_announce_meal amount (reset s)))).
Proof.
  intro H. destruct (H patient_ex (-1)) as [_ Hneg].
  apply (announce_meal_nonneg_iff (-1) (reset patient_ex)) in Hneg.
  cbn in Hneg. lra.
Qed.

(** ** The right-hand side [model] *)

Section Model.

Variables (tm : R) (x : list R) (action : Action) (params : Params.t).
Variables (last_Qsto last_foodtaken : R).

Let L := model_locals tm x action params last_Qsto last_foodtaken.
Let out := model tm x action params last_Qsto last_foodtaken.

(** C1, as the code has it.  [model] multiplies the derivative by the
    indicator of [x[i] >= 0] at the indices 3, 4, 5, 9, 10, 11, 12, 13, 15,
    16 and 17; the stomach and intestine derivatives (0, 1, 2) and those of
    6, 7, 8 and 14 are returned as first computed. *)
Theorem model_clamps :
  Forall (fun i => idx out i = bool_to_R (ge_b (idx x i) 0) * idx (raw L) i)
         clamped /\
  Forall (fun i => idx out i = idx (raw L) i) unclamped /\
  List.length out = 18%nat.
Proof.
  split; [| split].
  - unfold clamped. repeat constructor.
  - unfold unclamped. repeat constructor.
  - reflexivity.
Qed.

(** C8.  With [Gt = x[3] / Vg], the risk term is 0 when [Gt > Gb] and
    otherwise 10 times the square of the logarithm of
    [(max(Gt, Gth) / Gb) ** r1]; with positive [Gth] and [Gb] the base of
    that power is positive. *)
Theorem model_risk :
  Gt L = idx x 3 / Params.Vg params /\
  risk L =
    (if gt_b (Gt L) (Params.Gb params) then 0
     else 10 * (np_log (np_pow (Rmax (Gt L) (Params.Gth params)
                                / Params.Gb params) (Params.r1 params))) ^ 2) /\
  (Gt L > Params.Gb params -> risk L = 0) /\
  (0 < Params.Gth params -> 0 < Params.Gb params ->
   0 < Rmax (Gt L) (Params.Gth params) / Params.Gb params).
Proof.
  assert (Hrisk : risk L =
    (if gt_b (Gt L) (Params.Gb params) then 0
     else 10 * (np_log (np_pow (Rmax (Gt L) (Params.Gth params)
                                / Params.Gb params) (Params.r1 params))) ^ 2)).
  { subst L. cbn [risk Gt model_locals].
    set (G := idx x 3 / Params.Vg params).
    destruct (gt_b G (Params.Gb params)); [reflexivity |].
    unfold lt_b. destruct (Rlt_dec G (Params.Gth params)) as [H | H].
    - rewrite Rmax_right by lra. reflexivity.
    - rewrite Rmax_left by lra. reflexivity. }
  split; [reflexivity | split; [exact Hrisk | split]].
  - intro H. rewrite Hrisk, gt_b_true by exact H. reflexivity.
  - intros Hth Hb. apply Rdiv_lt_0_compat; [| exact Hb].
    pose proof (Rmax_r (Gt L) (Params.Gth params)). lra.
Qed.

(** C9.  The glucose production enters the plasma glucose derivative as
    [max(EGPt, 0)] with
    [EGPt = kp1 - kp2 * x[3] - kp3 * x[8] + kcounter * x[14]]: the term is
    never negative, and a negative [EGPt] contributes nothing. *)
Theorem model_EGP_floor :
  let rest := Rat L - Uiit L - Et L - Params.k1 params * idx x 3
              + Params.k2 params * idx x 4 in
  EGPt L = Params.kp1 params - Params.kp2 params * idx x 3
           - Params.kp3 params * idx x 8 + Params.kcounter params * idx x 14 /\
  idx (raw L) 3 = Rmax (EGPt L) 0 + rest /\
  idx out 3 = bool_to_R (ge_b (idx x 3) 0) * (Rmax (EGPt L) 0 + rest) /\
  0 <= Rmax (EGPt L) 0 /\
  (EGPt L < 0 -> idx (raw L) 3 = rest).
Proof.
  assert (Hraw : idx (raw L) 3 =
                 Rmax (EGPt L) 0 + (Rat L - Uiit L - Et L
                   - Params.k1 params * idx x 3 + Params.k2 params * idx x 4)).
  { subst L. cbn [raw EGPt Rat Uiit Et model_locals idx nth].
    rewrite py_max_Rmax. lra. }
  cbv zeta. split; [reflexivity | split; [exact Hraw | split; [| split]]].
  - rewrite <- Hraw. reflexivity.
  - apply Rmax_r.
  - intro H. rewrite Hraw, Rmax_right by lra. lra.
Qed.

End Model.

(** C1 as stated fails at the stomach: with [x[0] = -1] and [kmax = 1] the
    returned [dxdt[0]] is 1, not 0. *)
Lemma model_stomach_not_clamped :
  ~ (forall (tm : R) (x : list R) (action : Action) (params : Params.t)
            (last_Qsto last_foodtaken : R),
       Forall (fun i =>
                 idx (model tm x action params last_Qsto last_foodtaken) i
                 = idx (raw (model_locals tm x action params
                                          last_Qsto last_foodtaken)) i
                   * bool_to_R (ge_b (idx x i) 0))
              named_nonnegative).
Proof.
  intro H.
  specialize (H 0 (-1 :: repeat 0 17) (mkAction 0 0) params_ex 0 0).
  unfold named_nonnegative in H. inversion H as [| ? ? H0 _]; subst.
  unfold model in H0. cbn [dxdt raw model_locals idx nth repeat] in H0.
  rewrite (ge_b_false (-1) 0) in H0 by lra.
  cbn in H0. lra.
Qed.

(** ** The hyperbolic tangent *)

Lemma tanh_alt u : tanh u = 1 - 2 * / (exp (2 * u) + 1).
Proof.
  unfold tanh, sinh, cosh. rewrite exp_Ropp.
  replace (2 * u) with (u + u) by lra. rewrite exp_plus.
  pose proof (exp_pos u) as Hp. field. split; nra.
Qed.

Lemma tanh_bounds u : -1 < tanh u < 1.
Proof.
  rewrite tanh_alt. pose proof (exp_pos (2 * u)) as Hp.
  assert (H0 : 0 < / (exp (2 * u) + 1)) by (apply Rinv_0_lt_compat; lra).
  assert (H1 : / (exp (2 * u) + 1) < / 1)
    by (apply Rinv_1_lt_contravar; lra).
  rewrite Rinv_1 in H1. lra.
Qed.

Lemma tanh_increasing u v : u < v -> tanh u < tanh v.
Proof.
  intro H. rewrite !tanh_alt.
  pose proof (exp_pos (2 * u)) as Hu. pose proof (exp_pos (2 * v)) as Hv.
  assert (He : exp (2 * u) < exp (2 * v)) by (apply exp_increasing; lra).
  assert (Hi : / (exp (2 * v) + 1) < / (exp (2 * u) + 1))
    by (apply Rinv_lt_contravar; nra).
  lra.
Qed.

Lemma tanh_monotone u v : u <= v -> tanh u <= tanh v.
Proof.
  intros [H | ->]; [left; apply tanh_increasing; exact H | right; reflexivity].
Qed.

(** ** The gastric emptying rate *)

Section Kgut.

Variables (tm : R) (x : list R) (action : Action) (params : Params.t).
Variables (last_Qsto last_foodtaken : R).

Let L := model_locals tm x action params last_Qsto last_foodtaken.
Let kmin := Params.kmin params.
Let kmax := Params.kmax params.
Let b := Params.b params.
Let d := Params.d params.

(** The two arguments of [tanh] in the branch [Dbar > 0]. *)
Let arg_b := 5 / 2 / (1 - b) / Dbar L * (qsto L - b * Dbar L).
Let arg_d := 5 / 2 / d / Dbar L * (qsto L - d * Dbar L).

Lemma kgut_eq :
  kgut L = if gt_b (Dbar L) 0
           then kmin + (kmax - kmin) / 2 * (tanh arg_b - tanh arg_d + 2)
           else kmax.
Proof. reflexivity. Qed.

Lemma kgut_args_gap :
  0 < b < 1 -> 0 < d -> Dbar L > 0 ->
  arg_d - arg_b =
    5 / 2 * / (Dbar L * d * (1 - b))
    * (d * (2 * b - 1) * Dbar L - (b + d - 1) * qsto L).
Proof.
  intros Hb Hd HD. unfold arg_b, arg_d. field. repeat split; lra.
Qed.

(** C3, as the code has it.  With [kmin <= kmax], [0 < b < 1], [0 < d] and
    [Dbar >= 0], [kgut] is at least [kmin] and at most
    [kmax + (kmax - kmin)]; it is at most [kmax] when
    [(b + d - 1) * qsto <= d * (2 * b - 1) * Dbar]; and when [Dbar = 0] it
    is exactly [kmax], the division by [Dbar] being confined to the branch
    [Dbar > 0]. *)
Theorem model_kgut_bounds :
  kmin <= kmax -> 0 < b < 1 -> 0 < d -> Dbar L >= 0 ->
  qsto L = idx x 0 + idx x 1 /\
  Dbar L = last_Qsto + last_foodtaken /\
  kmin <= kgut L <= kmax + (kmax - kmin) /\
  ((b + d - 1) * qsto L <= d * (2 * b - 1) * Dbar L -> kgut L <= kmax) /\
  (Dbar L = 0 -> kgut L = kmax).
Proof.
  intros Hk Hb Hd HD.
  split; [reflexivity | split; [reflexivity |]].
  rewrite kgut_eq.
  destruct (gt_b_spec (Dbar L) 0) as [Hpos | Hzero].
  - pose proof (tanh_bounds arg_b) as Hb1.
    pose proof (tanh_bounds arg_d) as Hd1.
    split; [split; nra | split].
    + intro Hcond.
      assert (Hle : arg_b <= arg_d).
      { pose proof (kgut_args_gap Hb Hd Hpos) as Hgap.
        assert (Hinv : 0 < / (Dbar L * d * (1 - b))).
        { apply Rinv_0_lt_compat. apply Rmult_lt_0_compat; [nra | lra]. }
        assert (0 <= 5 / 2 * / (Dbar L * d * (1 - b))
                     * (d * (2 * b - 1) * Dbar L - (b + d - 1) * qsto L)).
        { apply Rmult_le_pos; lra. }
        lra. }
      pose proof (tanh_monotone _ _ Hle). nra.
    + intro H0. lra.
  - split; [split; lra | split; intros; lra].
Qed.

End Kgut.

Lemma model_kgut_bounds_witness :
  let x := (1 / 2) :: repeat 0 17 in
  let L := model_locals 0 x (mkAction 0 0) params_ex 1 0 in
  let kmin := Params.kmin params_ex in
  let kmax := Params.kmax params_ex in
  let b := Params.b params_ex in
  let d := Params.d params_ex in
  kmin <= kmax /\ 0 < b < 1 /\ 0 < d /\ Dbar L >= 0 /\
  qsto L = idx x 0 + idx x 1 /\
  Dbar L = 1 + 0 /\
  kmin <= kgut L <= kmax + (kmax - kmin) /\
  ((b + d - 1) * qsto L <= d * (2 * b - 1) * Dbar L -> kgut L <= kmax) /\
  (Dbar L = 0 -> kgut L = kmax).
Proof.
  cbv zeta.
  assert (H1 : Params.kmin params_ex <= Params.kmax params_ex) by (cbn; lra).
  assert (H2 : 0 < Params.b params_ex < 1) by (cbn; lra).
  assert (H3 : 0 < Params.d params_ex) by (cbn; lra).
  assert (H4 : Dbar (model_locals 0 ((1 / 2) :: repeat 0 17) (mkAction 0 0)
                                  params_ex 1 0) >= 0) by (cbn; lra).
  repeat (split; [assumption |]).
  exact (model_kgut_bounds 0 ((1 / 2) :: repeat 0 17) (mkAction 0 0)
                           params_ex 1 0 H1 H2 H3 H4).
Defined.

(** C3 as stated fails: with [kmin = 0], [kmax = 1], [b = 1/2], [d = 9/10]
    and [qsto = Dbar = 1] the two arguments of [tanh] are 5/2 and 5/18, and
    [kgut] exceeds [kmax]. *)
Lemma model_kgut_above_kmax :
  let L := model_locals 0 (1 :: repeat 0 17) (mkAction 0 0) params_ex 1 0 in
  Params.kmin params_ex <= Params.kmax params_ex /\
  0 < Params.b params_ex < 1 /\ 0 < Params.d params_ex /\ Dbar L >= 0 /\
  ~ (Params.kmin params_ex <= kgut L <= Params.kmax params_ex).
Proof.
  cbv zeta. cbn [Params.kmin Params.kmax Params.b Params.d params_ex].
  repeat (split; [first [lra | cbn; lra] |]).
  intros [_ Hle].
  rewrite kgut_eq in Hle.
  cbn [Dbar qsto model_locals idx nth repeat
       Params.kmin Params.kmax Params.b Params.d params_ex] in Hle.
  rewrite gt_b_true in Hle by lra.
  replace (5 / 2 / (1 - 1 / 2) / (1 + 0) * (1 + 0 - 1 / 2 * (1 + 0)))
    with (5 / 2) in Hle by field.
  replace (5 / 2 / (9 / 10) / (1 + 0) * (1 + 0 - 9 / 10 * (1 + 0)))
    with (5 / 18) in Hle by field.
  assert (Hlt : tanh (5 / 18) < tanh (5 / 2)) by (apply tanh_increasing; lra).
  lra.
Qed.

(** ** The step *)

Section Step.

Variable dopri5 :
  (R -> list R -> list R) -> list R -> R -> R -> list R * R * bool.

(** The object as [step] leaves it, field by field, in terms of the amount
    [_announce_meal] returns. *)
Lemma step_fields (a : Action) (s : self) :
  let e := fst (_announce_meal (CHO a) s) in
  let starts := gt_b e 0 && le_b (CHO (_last_action s)) 0 in
  let stops := le_b e 0 && gt_b (CHO (_last_action s)) 0 in
  let s' := after_step dopri5 a s in
  planned_meal s' = planned_meal (snd (_announce_meal (CHO a) s)) /\
  _last_action s' = Action_replace_CHO a e /\
  is_eating s' =
    (if stops then false else if starts then true else is_eating s) /\
  _last_Qsto s' =
    (if starts then idx (state s) 0 + idx (state s) 1 else _last_Qsto s) /\
  _last_foodtaken s' =
    (if starts then 0 + e
     else if is_eating s then _last_foodtaken s + e else _last_foodtaken s) /\
  _params s' = _params s /\ init_state s' = init_state s /\ t0 s' = t0 s /\
  name s' = name s.
Proof.
  cbv zeta. unfold after_step, step.
  pose proof (announce_meal_frame (CHO a) s) as Hf. cbv zeta in Hf.
  destruct (_announce_meal (CHO a) s) as [e s1]. cbn [fst snd] in *.
  destruct s1 as [p1 i1 t1 q1 f1 n1 o1 la1 ie1 pm1]. cbn in Hf.
  destruct Hf as (-> & -> & -> & -> & -> & -> & -> & -> & ->).
  cbn -[integrate gt_b le_b]. rewrite !le_b_negb_gt_b.
  destruct (gt_b e 0) eqn:G1;
    destruct (gt_b (CHO (_last_action s)) 0) eqn:G2;
    destruct (is_eating s) eqn:IE;
    cbn -[integrate gt_b]; rewrite ?G1, ?G2, ?IE; cbn -[integrate gt_b];
    (destruct (ode_success (_odesolver s));
     [destruct (integrate _ _ _) |]);
    cbn -[gt_b]; rewrite ?IE; repeat split; reflexivity.
Qed.

End Step.

Lemma episode_next_flag (flag : bool) (previous now : R) :
  episode_flag (episode_next (episode_of flag) previous now) =
  (if le_b now 0 && gt_b previous 0 then false
   else if gt_b now 0 && le_b previous 0 then true else flag).
Proof.
  destruct flag; cbn -[gt_b le_b]; rewrite !le_b_negb_gt_b;
    destruct (gt_b now 0), (gt_b previous 0); reflexivity.
Qed.

Lemma episode_of_flag (e : episode) : episode_of (episode_flag e) = e.
Proof. destruct e; reflexivity. Qed.

(** An announcement within the eating rate on an empty backlog is eaten
    at once. *)
Lemma announce_meal_within_rate (meal : R) (s : self) :
  planned_meal s = 0 -> 0 <= meal <= EAT_RATE ->
  fst (_announce_meal meal s) = meal /\
  planned_meal (snd (_announce_meal meal s)) = 0.
Proof.
  intros Hz [Hlo Hhi]. destruct (announce_meal_eq meal s) as [-> ->].
  cbv zeta. rewrite Hz.
  destruct (gt_b_spec (0 + meal) 0) as [H | H].
  - rewrite Rmin_right by lra. rewrite Rmax_left by lra. lra.
  - lra.
Qed.

Section StepProperties.

Variable dopri5 :
  (R -> list R -> list R) -> list R -> R -> R -> list R * R * bool.

(** The flag after a step is the two-state machine's, run on the amounts
    eaten at the previous and at this step. *)
Lemma step_episode (a : Action) (s : self) :
  let s' := after_step dopri5 a s in
  CHO (_last_action s') = fst (_announce_meal (CHO a) s) /\
  is_eating s' =
    episode_flag (episode_next (episode_of (is_eating s))
                               (CHO (_last_action s))
                               (fst (_announce_meal (CHO a) s))).
Proof.
  destruct (step_fields dopri5 a s) as (_ & Hla & Hie & _). cbv zeta in *.
  rewrite Hla, Hie, episode_next_flag. split; reflexivity.
Qed.

Lemma run_flags (actions : list Action) : forall s,
  map snd (fst (run dopri5 actions s)) =
  episode_flags (episode_of (is_eating s)) (CHO (_last_action s))
                (map fst (fst (run dopri5 actions s))).
Proof.
  induction actions as [| a rest IH]; intro s; cbn [run].
  - reflexivity.
  - specialize (IH (after_step dopri5 a s)).
    destruct (step_episode a s) as [Hcho Hflag]. cbv zeta in Hcho, Hflag.
    destruct (run dopri5 rest (after_step dopri5 a s)) as [tr s2].
    cbn [fst snd map episode_flags] in *.
    rewrite IH. rewrite Hflag at 1 2. rewrite episode_of_flag, Hcho.
    reflexivity.
Qed.

Lemma run_within_rate (actions : list Action) : forall s,
  planned_meal s = 0 ->
  Forall (fun a => 0 <= CHO a <= EAT_RATE) actions ->
  map fst (fst (run dopri5 actions s)) = map CHO actions.
Proof.
  induction actions as [| a rest IH]; intros s Hz Hall; cbn [run].
  - reflexivity.
  - inversion Hall as [| ? ? Ha Hrest]; subst.
    destruct (announce_meal_within_rate (CHO a) s Hz Ha) as [Heat Hleft].
    destruct (step_fields dopri5 a s) as (Hpm & _).
    destruct (step_episode a s) as [Hcho _]. cbv zeta in Hpm, Hcho.
    specialize (IH (after_step dopri5 a s) ltac:(congruence) Hrest).
    destruct (run dopri5 rest (after_step dopri5 a s)) as [tr s2].
    cbn [fst snd map] in *. rewrite IH, Hcho, Heat. reflexivity.
Qed.

(** C6.  After [reset] the tracker is NOT_EATING with a zero previous
    amount.  A step moves it as the two-state machine says: [is_eating]
    becomes true when the amount eaten is positive and the stored previous
    amount was not, false when the amount eaten is not positive and the
    previous one was, and is otherwise unchanged.  Hence any run from
    [reset] whose eaten amounts are 0, 0, 5, 5, 5, 0, 0 shows the flags
    false, false, true, true, true, false, false, and announcing exactly
    those amounts is such a run. *)
Theorem eating_episode_machine (s : self) :
  (is_eating (reset s) = false /\ CHO (_last_action (reset s)) = 0) /\
  (forall (a : Action) (s0 : self),
     let eaten := fst (_announce_meal (CHO a) s0) in
     let previous := CHO (_last_action s0) in
     let s1 := after_step dopri5 a s0 in
     CHO (_last_action s1) = eaten /\
     episode_of (is_eating s1) =
       episode_next (episode_of (is_eating s0)) previous eaten /\
     (eaten > 0 -> previous <= 0 -> is_eating s1 = true) /\
     (eaten <= 0 -> previous > 0 -> is_eating s1 = false)) /\
  (forall actions : list Action,
     map fst (fst (run dopri5 actions (reset s))) = [0; 0; 5; 5; 5; 0; 0] ->
     map snd (fst (run dopri5 actions (reset s)))
     = [false; false; true; true; true; false; false]) /\
  (let actions := map (fun c => mkAction c 0) [0; 0; 5; 5; 5; 0; 0] in
   map fst (fst (run dopri5 actions (reset s))) = [0; 0; 5; 5; 5; 0; 0] /\
   map snd (fst (run dopri5 actions (reset s)))
   = [false; false; true; true; true; false; false]).
Proof.
  assert (Hflags : forall actions : list Action,
     map fst (fst (run dopri5 actions (reset s))) = [0; 0; 5; 5; 5; 0; 0] ->
     map snd (fst (run dopri5 actions (reset s)))
     = [false; false; true; true; true; false; false]).
  { intros actions Heaten. rewrite run_flags, Heaten.
    cbn [reset is_eating _last_action CHO set_planned_meal set_is_eating
         set_last_action].
    repeat (cbn -[gt_b le_b]; decide_cmp). reflexivity. }
  split; [split; reflexivity | split; [| split; [exact Hflags |]]].
  - intros a s0. cbv zeta.
    destruct (step_episode a s0) as [Hcho Hflag]. cbv zeta in Hcho, Hflag.
    split; [exact Hcho | split; [| split]].
    + rewrite Hflag. apply episode_of_flag.
    + intros H1 H2. rewrite Hflag, episode_next_flag.
      rewrite (le_b_false _ _ H1), (gt_b_true _ _ H1), (le_b_true _ _ H2).
      reflexivity.
    + intros H1 H2. rewrite Hflag, episode_next_flag.
      rewrite (le_b_true _ _ H1), (gt_b_true _ _ H2). reflexivity.
  - cbv zeta.
    assert (Heaten :
      map fst (fst (run dopri5 (map (fun c => mkAction c 0)
                                    [0; 0; 5; 5; 5; 0; 0]) (reset s)))
      = [0; 0; 5; 5; 5; 0; 0]).
    { rewrite run_within_rate; [reflexivity | reflexivity |].
      unfold EAT_RATE. repeat constructor; cbn; lra. }
    split; [exact Heaten | apply Hflags; exact Heaten].
Qed.

(** C10.  On every object a caller can hold (constructed, reset, or left
    by a call of [step]), [is_eating] is true exactly when the CHO of the
    stored previous action, the amount eaten at the last step, is
    positive. *)
Theorem is_eating_iff_last_CHO_positive (s : self) :
  reachable dopri5 s ->
  is_eating s = gt_b (CHO (_last_action s)) 0 /\
  (is_eating s = true <-> CHO (_last_action s) > 0).
Proof.
  intro Hreach.
  assert (Heq : is_eating s = gt_b (CHO (_last_action s)) 0).
  { induction Hreach as [params init_state t0 | s0 _ _ | a s0 _ IH].
    - cbn. symmetry. apply gt_b_false. lra.
    - cbn. symmetry. apply gt_b_false. lra.
    - destruct (step_episode a s0) as [Hcho Hflag]. cbv zeta in Hcho, Hflag.
      rewrite Hflag, Hcho, episode_next_flag, IH, !le_b_negb_gt_b.
      destruct (gt_b (fst (_announce_meal (CHO a) s0)) 0),
               (gt_b (CHO (_last_action s0)) 0); reflexivity. }
  split; [exact Heq |].
  rewrite Heq. destruct (gt_b_spec (CHO (_last_action s)) 0) as [H | H].
  - tauto.
  - split; [discriminate | intro; contradiction].
Qed.

End StepProperties.

Lemma is_eating_iff_last_CHO_positive_witness :
  let s := after_step dopri5_idle (mkAction 80 0) patient_ex in
  reachable dopri5_idle s /\
  is_eating s = gt_b (CHO (_last_action s)) 0 /\
  (is_eating s = true <-> CHO (_last_action s) > 0).
Proof.
  cbv zeta.
  assert (Hreach : reachable dopri5_idle
                     (after_step dopri5_idle (mkAction 80 0) patient_ex))
    by (apply reachable_step; apply reachable_init).
  split; [exact Hreach |].
  apply (is_eating_iff_last_CHO_positive dopri5_idle _ Hreach).
Defined.

(** ** A step on a failed integrator *)

(** Splits a goal about [step a s] by the amount eaten, the previous
    amount and the flag, leaving the test of the success flag. *)
Ltac step_cases a s :=
  unfold after_step, step;
  let Hf := fresh "Hf" in
  pose proof (announce_meal_frame (CHO a) s) as Hf; cbv zeta in Hf;
  destruct (_announce_meal (CHO a) s) as [e s1]; cbn [fst snd] in *;
  destruct s1 as [p1 i1 t1 q1 f1 n1 o1 la1 ie1 pm1]; cbn in Hf;
  destruct Hf as (-> & -> & -> & -> & -> & -> & -> & -> & ->);
  cbn -[integrate gt_b le_b]; rewrite !le_b_negb_gt_b;
  destruct (gt_b e 0) eqn:G1;
  destruct (gt_b (CHO (_last_action s)) 0) eqn:G2;
  destruct (is_eating s) eqn:IE;
  cbn -[integrate gt_b]; rewrite ?G1, ?G2, ?IE; cbn -[integrate gt_b].

(** With the success flag cleared, [step] raises and only stores the
    parameters in the integrator object. *)
Lemma step_failed dopri5 (a : Action) (s : self) :
  successful (_odesolver s) = false ->
  let s' := after_step dopri5 a s in
  fst (step dopri5 a s) = Raised /\
  _odesolver s' =
    set_f_params (_last_action s', _params s', _last_Qsto s',
                  _last_foodtaken s') (_odesolver s).
Proof.
  unfold successful. intro Hfail. cbv zeta.
  step_cases a s; rewrite Hfail; cbn -[gt_b]; rewrite ?IE;
    split; reflexivity.
Qed.

(** With the success flag cleared the integrator is not consulted. *)
Lemma step_failed_independent dopri5 dopri5' (a : Action) (s : self) :
  successful (_odesolver s) = false ->
  step dopri5' a s = step dopri5 a s.
Proof.
  unfold successful. intro Hfail.
  step_cases a s; rewrite Hfail; reflexivity.
Qed.

(** A step on the failing integrator leaves the success flag cleared. *)
Lemma step_failing_clears_flag (a : Action) (s : self) :
  successful (_odesolver (after_step dopri5_failing a s)) = false.
Proof.
  unfold successful.
  step_cases a s; destruct (ode_success (_odesolver s)) eqn:Hs;
    cbn -[gt_b]; rewrite ?IE; cbn; rewrite ?Hs; reflexivity.
Qed.

Lemma with_success_announce (flag : bool) (meal : R) (s : self) :
  fst (_announce_meal meal (with_success flag s)) = fst (_announce_meal meal s)
  /\ planned_meal (snd (_announce_meal meal (with_success flag s)))
     = planned_meal (snd (_announce_meal meal s)).
Proof.
  destruct (announce_meal_eq meal (with_success flag s)) as [-> ->].
  destruct (announce_meal_eq meal s) as [-> ->].
  split; reflexivity.
Qed.

(** C2, as the code has it.  When the integrator has reported a failure,
    [step] raises, without consulting the integrator again, and leaves the
    state vector, the time and the cleared success flag as they were; but
    the meal backlog, the eating flag, [_last_Qsto], [_last_foodtaken] and
    the stored previous action have by then been updated, exactly as a
    step on a working integrator updates them. *)
Theorem step_on_failed_solver dopri5 (a : Action) (s : self) :
  successful (_odesolver s) = false ->
  let s' := after_step dopri5 a s in
  fst (step dopri5 a s) = Raised /\
  state s' = state s /\ t s' = t s /\
  successful (_odesolver s') = false /\
  (forall dopri5', step dopri5' a s = step dopri5 a s) /\
  same_bookkeeping s' (after_step dopri5 a (with_success true s)) /\
  planned_meal s' = planned_meal (snd (_announce_meal (CHO a) s)) /\
  _last_action s' = Action_replace_CHO a (fst (_announce_meal (CHO a) s)).
Proof.
  intro Hfail. cbv zeta.
  destruct (step_failed dopri5 a s Hfail) as [Hraise Hsolver].
  cbv zeta in Hsolver.
  destruct (step_fields dopri5 a s) as (Hpm & Hla & Hie & Hq & Hft & _).
  destruct (step_fields dopri5 a (with_success true s))
    as (Hpm' & Hla' & Hie' & Hq' & Hft' & _).
  destruct (with_success_announce true (CHO a) s) as [Heat Hleft].
  cbv zeta in *.
  split; [exact Hraise |].
  split; [unfold state; rewrite Hsolver; reflexivity |].
  split; [unfold t; rewrite Hsolver; reflexivity |].
  split; [unfold successful; rewrite Hsolver; exact Hfail |].
  split; [intro d'; apply step_failed_independent; exact Hfail |].
  split; [| split; assumption].
  unfold same_bookkeeping.
  rewrite Hpm, Hpm', Hla, Hla', Hie, Hie', Hq, Hq', Hft, Hft', Heat, Hleft.
  repeat split; reflexivity.
Qed.

Lemma step_on_failed_solver_witness :
  let s := with_success false patient_ex in
  let a := mkAction 10 0 in
  let s' := after_step dopri5_idle a s in
  successful (_odesolver s) = false /\
  fst (step dopri5_idle a s) = Raised /\
  state s' = state s /\ t s' = t s /\
  successful (_odesolver s') = false /\
  (forall dopri5', step dopri5' a s = step dopri5_idle a s) /\
  same_bookkeeping s' (after_step dopri5_idle a (with_success true s)) /\
  planned_meal s' = planned_meal (snd (_announce_meal (CHO a) s)) /\
  _last_action s' = Action_replace_CHO a (fst (_announce_meal (CHO a) s)).
Proof.
  cbv zeta.
  assert (Hfail : successful (_odesolver (with_success false patient_ex))
                  = false) by reflexivity.
  split; [exact Hfail |].
  exact (step_on_failed_solver dopri5_idle (mkAction 10 0)
           (with_success false patient_ex) Hfail).
Defined.

(** C2 as stated fails.  The patient announces 10 g while the integrator
    fails: the call returns with 5 g eaten and 5 g queued.  The next call,
    announcing nothing, raises, yet the backlog has gone from 5 to 0. *)
Lemma step_on_failed_solver_changes_bookkeeping :
  let s := after_step dopri5_failing (mkAction 10 0) patient_ex in
  let s' := after_step dopri5_failing (mkAction 0 0) s in
  successful (_odesolver s) = false /\
  planned_meal s = 5 /\ planned_meal s' = 0 /\
  ~ (fst (step dopri5_failing (mkAction 0 0) s) = Raised /\
     same_observable s' s).
Proof.
  cbv zeta.
  set (s := after_step dopri5_failing (mkAction 10 0) patient_ex).
  assert (Hs : planned_meal s = 5).
  { unfold s.
    rewrite (proj1 (step_fields dopri5_failing (mkAction 10 0) patient_ex)).
    rewrite (proj2 (announce_meal_eq _ _)). cbn -[gt_b Rmax Rmin].
    rewrite gt_b_true by lra. unfold EAT_RATE.
    rewrite Rmin_left by lra. rewrite Rmax_right by lra. lra. }
  assert (Hs' : planned_meal (after_step dopri5_failing (mkAction 0 0) s) = 0).
  { rewrite (proj1 (step_fields dopri5_failing (mkAction 0 0) s)).
    rewrite (proj2 (announce_meal_eq _ _)). cbn [CHO]. rewrite Hs.
    rewrite gt_b_true by lra. unfold EAT_RATE.
    rewrite Rmin_left by lra. rewrite Rmax_left by lra. reflexivity. }
  split; [apply step_failing_clears_flag |].
  split; [exact Hs | split; [exact Hs' |]].
  intros [_ (_ & _ & Hpm & _)]. rewrite Hs, Hs' in Hpm. lra.
Qed.

(** * Further properties of the patient *)

(** ** The meal buffer: rate limit and draining *)

(** X1.  Whatever is announced on whatever backlog, the amount
    [_announce_meal] returns lies between 0 and [EAT_RATE], is positive
    exactly when the backlog plus the announcement is, and never exceeds
    what is queued. *)
Theorem announce_meal_rate_limit (meal : R) (s : self) :
  let eaten := fst (_announce_meal meal s) in
  0 <= eaten <= EAT_RATE /\
  (eaten > 0 <-> planned_meal s + meal > 0) /\
  eaten <= Rmax 0 (planned_meal s + meal).
Proof.
  cbv zeta. destruct (announce_meal_eq meal s) as [-> _]. cbv zeta.
  unfold EAT_RATE.
  destruct (gt_b_spec (planned_meal s + meal) 0) as [H | H].
  - unfold Rmin, Rmax.
    destruct (Rle_dec 5 (planned_meal s + meal));
      destruct (Rle_dec 0 (planned_meal s + meal));
      repeat split; intros; lra.
  - pose proof (Rmax_l 0 (planned_meal s + meal)).
    repeat split; intros; lra.
Qed.

(** One call announcing nothing on a non-negative backlog. *)
Lemma announce_zero_step (s : self) :
  0 <= planned_meal s ->
  fst (_announce_meal 0 s) = Rmin EAT_RATE (planned_meal s) /\
  planned_meal (snd (_announce_meal 0 s)) = Rmax 0 (planned_meal s - EAT_RATE).
Proof.
  intro Hs. destruct (announce_meal_eq 0 s) as [-> ->]. cbv zeta.
  unfold EAT_RATE.
  destruct (gt_b_spec (planned_meal s + 0) 0) as [H | H];
    unfold Rmin, Rmax;
    repeat match goal with |- context [Rle_dec ?a ?b] =>
             destruct (Rle_dec a b) end;
    split; lra.
Qed.

Lemma drain_shift (B : R) (i : nat) :
  Rmax 0 (Rmax 0 (B - EAT_RATE) - EAT_RATE * INR i)
  = Rmax 0 (B - EAT_RATE * INR (S i)).
Proof.
  rewrite S_INR. pose proof (pos_INR i) as Hi. unfold EAT_RATE.
  destruct (Rle_dec 0 (B - 5)) as [H | H];
    [rewrite (Rmax_right 0 (B - 5)) by lra
    | rewrite (Rmax_left 0 (B - 5)) by lra];
    unfold Rmax;
    repeat match goal with |- context [Rle_dec ?a ?b] =>
             destruct (Rle_dec a b) end; lra.
Qed.

Lemma announce_zero_drain (k : nat) : forall s,
  0 <= planned_meal s ->
  fst (announce_all (repeat 0 k) s)
  = map (fun i => Rmin EAT_RATE (Rmax 0 (planned_meal s - EAT_RATE * INR i)))
        (seq 0 k) /\
  planned_meal (snd (announce_all (repeat 0 k) s))
  = Rmax 0 (planned_meal s - EAT_RATE * INR k).
Proof.
  induction k as [| k IH]; intros s Hs.
  - cbn. split; [reflexivity |]. rewrite Rmax_right by lra. lra.
  - cbn [repeat announce_all].
    destruct (announce_zero_step s Hs) as [Heat Hleft].
    destruct (_announce_meal 0 s) as [e s1]. cbn [fst snd] in Heat, Hleft.
    assert (Hs1 : 0 <= planned_meal s1) by (rewrite Hleft; apply Rmax_l).
    destruct (IH s1 Hs1) as [IHe IHb].
    destruct (announce_all (repeat 0 k) s1) as [eaten s2].
    cbn [fst snd] in *. split.
    + rewrite IHe, Heat. cbn [seq map]. rewrite <- seq_shift, map_map.
      f_equal.
      * cbn [INR]. rewrite Rmult_0_r, Rminus_0_r, (Rmax_right 0) by exact Hs.
        reflexivity.
      * apply map_ext. intro i. rewrite Hleft, drain_shift. reflexivity.
    + rewrite IHb, Hleft. apply drain_shift.
Qed.

(** X2.  A non-negative backlog [B] drains at the eating rate: over [k]
    calls announcing nothing, the i-th call returns
    [min(EAT_RATE, max(0, B - EAT_RATE * i))], the backlog left is
    [max(0, B - EAT_RATE * k)], and it is empty as soon as
    [EAT_RATE * k >= B]. *)
Theorem backlog_drains_at_eat_rate (k : nat) (s : self) :
  0 <= planned_meal s ->
  let B := planned_meal s in
  let r := announce_all (repeat 0 k) s in
  fst r = map (fun i => Rmin EAT_RATE (Rmax 0 (B - EAT_RATE * INR i)))
              (seq 0 k) /\
  planned_meal (snd r) = Rmax 0 (B - EAT_RATE * INR k) /\
  (B <= EAT_RATE * INR k -> planned_meal (snd r) = 0).
Proof.
  intro Hs. cbv zeta. destruct (announce_zero_drain k s Hs) as [He Hb].
  split; [exact He | split; [exact Hb |]].
  intro Hk. rewrite Hb. apply Rmax_left. lra.
Qed.

Lemma backlog_drains_at_eat_rate_witness :
  let s := set_planned_meal 12 patient_ex in
  0 <= planned_meal s /\
  let B := planned_meal s in
  let r := announce_all (repeat 0 3) s in
  fst r = map (fun i => Rmin EAT_RATE (Rmax 0 (B - EAT_RATE * INR i)))
              (seq 0 3) /\
  planned_meal (snd r) = Rmax 0 (B - EAT_RATE * INR 3) /\
  (B <= EAT_RATE * INR 3 -> planned_meal (snd r) = 0).
Proof.
  cbv zeta.
  assert (Hs : 0 <= planned_meal (set_planned_meal 12 patient_ex))
    by (cbn; lra).
  split; [exact Hs |].
  exact (backlog_drains_at_eat_rate 3 (set_planned_meal 12 patient_ex) Hs).
Defined.

(** ** The lifecycle: [reset] *)

Lemma reset_ext (s1 s2 : self) :
  _params s1 = _params s2 -> init_state s1 = init_state s2 -> t0 s1 = t0 s2 ->
  reset s1 = reset s2.
Proof.
  destruct s1, s2. cbn. intros -> -> ->. reflexivity.
Qed.

Lemma run_keeps_configuration dopri5 (actions : list Action) : forall s,
  let s' := snd (run dopri5 actions s) in
  _params s' = _params s /\ init_state s' = init_state s /\ t0 s' = t0 s.
Proof.
  induction actions as [| a rest IH]; intro s; cbn [run].
  - cbn. repeat split.
  - specialize (IH (after_step dopri5 a s)). cbv zeta in IH.
    destruct (step_fields dopri5 a s) as (_ & _ & _ & _ & _ & Hp & Hi & Ht & _).
    cbv zeta in Hp, Hi, Ht.
    destruct (run dopri5 rest (after_step dopri5 a s)) as [tr s2].
    cbn [snd] in *. destruct IH as (-> & -> & ->). repeat split; assumption.
Qed.

(** X3.  [reset] forgets the history: after any sequence of steps, on any
    integrator and whatever their outcomes, it yields the object a reset
    of the original yields; it is idempotent, and it puts the state vector
    back to [init_state], the time to [t0] and the success flag to true. *)
Theorem reset_forgets_history dopri5 (actions : list Action) (s : self) :
  reset (snd (run dopri5 actions s)) = reset s /\
  reset (reset s) = reset s /\
  state (reset s) = init_state s /\ t (reset s) = t0 s /\
  successful (_odesolver (reset s)) = true.
Proof.
  destruct (run_keeps_configuration dopri5 actions s) as (Hp & Hi & Ht).
  cbv zeta in Hp, Hi, Ht.
  split; [apply reset_ext; assumption |].
  split; [apply reset_ext; reflexivity |].
  repeat split.
Qed.

(** ** The step and the integrator *)

(** As [step_cases], with [model] kept folded. *)
Ltac step_cases_folded a s :=
  unfold after_step, step;
  let Hf := fresh "Hf" in
  pose proof (announce_meal_frame (CHO a) s) as Hf; cbv zeta in Hf;
  destruct (_announce_meal (CHO a) s) as [e s1]; cbn [fst snd] in *;
  destruct s1 as [p1 i1 t1 q1 f1 n1 o1 la1 ie1 pm1]; cbn in Hf;
  destruct Hf as (-> & -> & -> & -> & -> & -> & -> & -> & ->);
  cbn -[integrate gt_b le_b model]; rewrite !le_b_negb_gt_b;
  destruct (gt_b e 0) eqn:G1;
  destruct (gt_b (CHO (_last_action s)) 0) eqn:G2;
  destruct (is_eating s) eqn:IE;
  cbn -[integrate gt_b model]; rewrite ?G1, ?G2, ?IE;
  cbn -[integrate gt_b model].

(** [integrate] on an object whose parameters are stored. *)
Lemma integrate_stored dopri5 (a : Action) (p : Params.t) (lq lf : R)
    (y : list R) (t : R) (ok : bool) (t1 : R) :
  let r := dopri5 (fun t x => model t x a p lq lf) y t t1 in
  integrate dopri5 (mkOde (Some (a, p, lq, lf)) y t ok) t1
  = Some (mkOde (Some (a, p, lq, lf)) (fst (fst r)) (snd (fst r))
                (ok && snd r)).
Proof.
  cbv zeta. unfold integrate. cbn -[model].
  destruct (dopri5 _ y t t1) as [[y1 t2] ok1]. reflexivity.
Qed.

(** A step on a working integrator: it returns, and the integrator object
    holds what [dopri5] gave for the right-hand side [model] with the
    adjusted action, from the current state and time to one sample period
    later. *)
Lemma step_successful dopri5 (a : Action) (s : self) :
  successful (_odesolver s) = true ->
  let s' := after_step dopri5 a s in
  let r := dopri5 (fun t x => model t x (_last_action s') (_params s)
                                    (_last_Qsto s') (_last_foodtaken s'))
                  (state s) (t s) (t s + SAMPLE_TIME) in
  fst (step dopri5 a s) = Returned /\
  state s' = fst (fst r) /\ t s' = snd (fst r) /\
  successful (_odesolver s') = snd r.
Proof.
  unfold successful, state, t. intro Hok. cbv zeta.
  step_cases_folded a s; rewrite Hok; unfold set_f_params;
    rewrite integrate_stored; cbn -[gt_b model];
    rewrite ?IE; cbn -[gt_b model]; rewrite ?Hok; repeat split; reflexivity.
Qed.

(** X4.  [step] returns normally exactly when the integrator's success
    flag is set at entry, and raises exactly when it is cleared: what the
    integrator does during the call does not change the outcome of that
    call. *)
Theorem step_returns_iff_successful dopri5 (a : Action) (s : self) :
  (fst (step dopri5 a s) = Returned <-> successful (_odesolver s) = true) /\
  (fst (step dopri5 a s) = Raised <-> successful (_odesolver s) = false).
Proof.
  destruct (successful (_odesolver s)) eqn:Hs.
  - destruct (step_successful dopri5 a s Hs) as [-> _].
    split; split; intro; (reflexivity || discriminate).
  - destruct (step_failed dopri5 a s Hs) as [-> _].
    split; split; intro; (reflexivity || discriminate).
Qed.

(** X5.  A failure of the integrator is reported one call late.  If
    [dopri5] fails during a step taken on a working integrator, that step
    still returns, keeping the state and time the integrator gave and
    clearing the success flag; it is the next call of [step], whatever its
    action, that raises. *)
Theorem integrator_failure_reported_by_next_step dopri5
    (a : Action) (s : self) :
  successful (_odesolver s) = true ->
  let s' := after_step dopri5 a s in
  let r := dopri5 (fun t x => model t x (_last_action s') (_params s)
                                    (_last_Qsto s') (_last_foodtaken s'))
                  (state s) (t s) (t s + SAMPLE_TIME) in
  snd r = false ->
  fst (step dopri5 a s) = Returned /\
  state s' = fst (fst r) /\ t s' = snd (fst r) /\
  successful (_odesolver s') = false /\
  (forall a2, fst (step dopri5 a2 s') = Raised).
Proof.
  intros Hok s' r Hr.
  destruct (step_successful dopri5 a s Hok) as (Hret & Hy & Ht & Hs').
  fold s' in Hy, Ht, Hs'. fold r in Hy, Ht, Hs'.
  rewrite Hr in Hs'.
  repeat (split; [assumption |]).
  intro a2. apply (step_failed dopri5 a2 s' Hs').
Qed.

Lemma integrator_failure_reported_by_next_step_witness :
  let a := mkAction 10 0 in
  let s' := after_step dopri5_failing a patient_ex in
  successful (_odesolver patient_ex) = true /\
  fst (step dopri5_failing a patient_ex) = Returned /\
  successful (_odesolver s') = false /\
  (forall a2, fst (step dopri5_failing a2 s') = Raised).
Proof.
  cbv zeta.
  assert (Hok : successful (_odesolver patient_ex) = true) by reflexivity.
  pose proof (integrator_failure_reported_by_next_step dopri5_failing
                (mkAction 10 0) patient_ex Hok eq_refl) as H.
  cbv zeta in H. destruct H as (H1 & _ & _ & H2 & H3).
  split; [exact Hok | split; [exact H1 | split; [exact H2 | exact H3]]].
Defined.

Lemma run_on_failed_solver dopri5 (actions : list Action) : forall s,
  successful (_odesolver s) = false ->
  let s' := snd (run dopri5 actions s) in
  state s' = state s /\ t s' = t s /\ successful (_odesolver s') = false.
Proof.
  induction actions as [| a rest IH]; intros s Hfail; cbn [run].
  - cbn [snd]. repeat split; exact Hfail.
  - destruct (step_failed dopri5 a s Hfail) as [_ Hsolver].
    cbv zeta in Hsolver.
    assert (Hfail' : successful (_odesolver (after_step dopri5 a s)) = false)
      by (unfold successful; rewrite Hsolver; exact Hfail).
    specialize (IH (after_step dopri5 a s) Hfail'). cbv zeta in IH.
    destruct (run dopri5 rest (after_step dopri5 a s)) as [tr s2].
    cbn [snd] in *. destruct IH as (-> & -> & ->).
    unfold state, t. rewrite Hsolver. repeat split.
Qed.

(** X6.  A failure is permanent until [reset]: once the success flag is
    cleared, no sequence of steps moves the state vector or the time or
    sets the flag again, and every further step raises; [reset] sets the
    flag. *)
Theorem failure_persists_until_reset dopri5
    (actions : list Action) (s : self) :
  successful (_odesolver s) = false ->
  let s' := snd (run dopri5 actions s) in
  state s' = state s /\ t s' = t s /\
  successful (_odesolver s') = false /\
  (forall a, fst (step dopri5 a s') = Raised) /\
  successful (_odesolver (reset s')) = true.
Proof.
  intros Hfail s'.
  destruct (run_on_failed_solver dopri5 actions s Hfail) as (Hy & Ht & Hs').
  fold s' in Hy, Ht, Hs'.
  repeat (split; [assumption |]).
  split; [| reflexivity].
  intro a. apply (step_failed dopri5 a s' Hs').
Qed.

Lemma failure_persists_until_reset_witness :
  let s := with_success false patient_ex in
  let s' := snd (run dopri5_idle [mkAction 10 0; mkAction 0 1] s) in
  successful (_odesolver s) = false /\
  state s' = state s /\ t s' = t s /\
  successful (_odesolver s') = false /\
  (forall a, fst (step dopri5_idle a s') = Raised) /\
  successful (_odesolver (reset s')) = true.
Proof.
  cbv zeta.
  assert (Hfail : successful (_odesolver (with_success false patient_ex))
                  = false) by reflexivity.
  split; [exact Hfail |].
  exact (failure_persists_until_reset dopri5_idle
           [mkAction 10 0; mkAction 0 1]
           (with_success false patient_ex) Hfail).
Defined.

Lemma run_time dopri5 (actions : list Action) :
  (forall f y t t1, snd (fst (dopri5 f y t t1)) = t1 /\
                    snd (dopri5 f y t t1) = true) ->
  forall s, successful (_odesolver s) = true ->
  let s' := snd (run dopri5 actions s) in
  t s' = t s + SAMPLE_TIME * INR (List.length actions) /\
  successful (_odesolver s') = true.
Proof.
  intro Hexact.
  induction actions as [| a rest IH]; intros s Hok; cbn [run].
  - cbn [snd List.length INR]. split; [lra | exact Hok].
  - destruct (step_successful dopri5 a s Hok) as (_ & _ & Ht & Hs').
    cbv zeta in Ht, Hs'.
    rewrite (proj1 (Hexact _ _ _ _)) in Ht.
    rewrite (proj2 (Hexact _ _ _ _)) in Hs'.
    specialize (IH (after_step dopri5 a s) Hs'). cbv zeta in IH.
    destruct (run dopri5 rest (after_step dopri5 a s)) as [tr s2].
    cbn [snd] in *. destruct IH as (-> & ->). rewrite Ht.
    change (List.length (a :: rest)) with (S (List.length rest)).
    rewrite S_INR. split; [lra | reflexivity].
Qed.

(** X7.  On an integrator that always reaches its target time and
    succeeds, every step returns and the time advances by exactly one
    sample period per step: after [n] steps from a working object the time
    is [t + SAMPLE_TIME * n], and from [reset] it is [t0 + n]. *)
Theorem time_advances_one_sample_per_step dopri5
    (actions : list Action) (s : self) :
  (forall f y t t1, snd (fst (dopri5 f y t t1)) = t1 /\
                    snd (dopri5 f y t t1) = true) ->
  successful (_odesolver s) = true ->
  t (snd (run dopri5 actions s))
    = t s + SAMPLE_TIME * INR (List.length actions) /\
  t (snd (run dopri5 actions (reset s))) = t0 s + INR (List.length actions) /\
  (forall a, fst (step dopri5 a (snd (run dopri5 actions s))) = Returned).
Proof.
  intros Hexact Hok.
  destruct (run_time dopri5 actions Hexact s Hok) as [Ht Hs'].
  destruct (run_time dopri5 actions Hexact (reset s) eq_refl) as [Ht0 _].
  cbv zeta in *.
  split; [exact Ht | split].
  - rewrite Ht0. change (t (reset s)) with (t0 s). unfold SAMPLE_TIME. lra.
  - intro a. apply (step_successful dopri5 a _ Hs').
Qed.

Lemma time_advances_one_sample_per_step_witness :
  let actions := [mkAction 80 1; mkAction 0 1; mkAction 0 1] in
  (forall f y t t1, snd (fst (dopri5_idle f y t t1)) = t1 /\
                    snd (dopri5_idle f y t t1) = true) /\
  successful (_odesolver patient_ex) = true /\
  t (snd (run dopri5_idle actions patient_ex))
    = t patient_ex + SAMPLE_TIME * INR (List.length actions) /\
  t (snd (run dopri5_idle actions (reset patient_ex)))
    = t0 patient_ex + INR (List.length actions) /\
  (forall a, fst (step dopri5_idle a (snd (run dopri5_idle actions patient_ex)))
             = Returned).
Proof.
  cbv zeta.
  assert (Hexact : forall f y t t1,
             snd (fst (dopri5_idle f y t t1)) = t1 /\
             snd (dopri5_idle f y t t1) = true)
    by (intros; split; reflexivity).
  assert (Hok : successful (_odesolver patient_ex) = true) by reflexivity.
  split; [exact Hexact | split; [exact Hok |]].
  exact (time_advances_one_sample_per_step dopri5_idle
           [mkAction 80 1; mkAction 0 1; mkAction 0 1] patient_ex Hexact Hok).
Defined.

Lemma eaten_bounds (meal : R) (s : self) :
  0 <= fst (_announce_meal meal s) <= EAT_RATE.
Proof.
  destruct (announce_meal_eq meal s) as [-> _]. cbv zeta. unfold EAT_RATE.
  destruct (gt_b_spec (planned_meal s + meal) 0) as [H | H]; [| lra].
  unfold Rmin. destruct (Rle_dec 5 (planned_meal s + meal)); lra.
Qed.

(** X8.  What the integrator is given.  On a working integrator the state
    after a step is [dopri5]'s result for [model] applied to the adjusted
    action, whose CHO is the amount eaten (at most [EAT_RATE], never
    negative, whatever was announced) and whose insulin is the caller's,
    with the patient's parameters and the updated meal history, from the
    current state and time to one sample period later. *)
Theorem step_feeds_model_the_eaten_amount dopri5 (a : Action) (s : self) :
  successful (_odesolver s) = true ->
  let eaten := fst (_announce_meal (CHO a) s) in
  let s' := after_step dopri5 a s in
  let rhs := fun t x => model t x (mkAction eaten (insulin a)) (_params s)
                              (_last_Qsto s') (_last_foodtaken s') in
  state s' = fst (fst (dopri5 rhs (state s) (t s) (t s + SAMPLE_TIME))) /\
  t s' = snd (fst (dopri5 rhs (state s) (t s) (t s + SAMPLE_TIME))) /\
  0 <= eaten <= EAT_RATE.
Proof.
  intros Hok eaten s' rhs.
  destruct (step_successful dopri5 a s Hok) as (_ & Hy & Ht & _).
  destruct (step_fields dopri5 a s) as (_ & Hla & _).
  cbv zeta in Hy, Ht, Hla. fold s' in Hy, Ht, Hla. rewrite Hla in Hy, Ht.
  split; [exact Hy | split; [exact Ht |]].
  apply eaten_bounds.
Qed.

Lemma step_feeds_model_the_eaten_amount_witness :
  let a := mkAction 80 1 in
  let eaten := fst (_announce_meal (CHO a) patient_ex) in
  let s' := after_step dopri5_idle a patient_ex in
  let rhs := fun t x => model t x (mkAction eaten (insulin a))
                              (_params patient_ex)
                              (_last_Qsto s') (_last_foodtaken s') in
  successful (_odesolver patient_ex) = true /\
  state s' = fst (fst (dopri5_idle rhs (state patient_ex) (t patient_ex)
                                   (t patient_ex + SAMPLE_TIME))) /\
  t s' = snd (fst (dopri5_idle rhs (state patient_ex) (t patient_ex)
                               (t patient_ex + SAMPLE_TIME))) /\
  0 <= eaten <= EAT_RATE.
Proof.
  cbv zeta.
  assert (Hok : successful (_odesolver patient_ex) = true) by reflexivity.
  split; [exact Hok |].
  exact (step_feeds_model_the_eaten_amount dopri5_idle (mkAction 80 1)
           patient_ex Hok).
Defined.

(** ** Invariants of the meal history *)

Section MealHistory.

Variable dopri5 :
  (R -> list R -> list R) -> list R -> R -> R -> list R * R * bool.

Lemma reachable_history_bounds (s : self) :
  reachable dopri5 s ->
  0 <= CHO (_last_action s) <= EAT_RATE /\ 0 <= _last_foodtaken s.
Proof.
  intro Hreach.
  induction Hreach as [params init_state t0 | s0 _ _ | a s0 _ IH].
  - cbn. unfold EAT_RATE. lra.
  - cbn. unfold EAT_RATE. lra.
  - destruct (step_fields dopri5 a s0) as (_ & Hla & _ & _ & Hft & _).
    cbv zeta in Hla, Hft. rewrite Hla, Hft. cbn [CHO Action_replace_CHO].
    pose proof (eaten_bounds (CHO a) s0) as He. destruct IH as [_ IHf].
    split; [exact He |].
    destruct (gt_b _ 0 && le_b _ 0); [lra |].
    destruct (is_eating s0); lra.
Qed.

(** X9.  On every object a caller can hold, whatever amounts (even
    negative ones) were announced and whatever the integrator did, the CHO
    of the stored action lies between 0 and [EAT_RATE], the food taken
    since the episode started is not negative, and the stored insulin is
    the one the caller passed at the last step. *)
Theorem meal_history_bounds (s : self) :
  reachable dopri5 s ->
  0 <= CHO (_last_action s) <= EAT_RATE /\
  0 <= _last_foodtaken s /\
  (forall a, insulin (_last_action (after_step dopri5 a s)) = insulin a).
Proof.
  intro Hreach.
  destruct (reachable_history_bounds s Hreach) as [Hc Hf].
  split; [exact Hc | split; [exact Hf |]].
  intro a. destruct (step_fields dopri5 a s) as (_ & Hla & _).
  cbv zeta in Hla. rewrite Hla. reflexivity.
Qed.

(** The amounts eaten along a run are those of the successive calls of
    [_announce_meal] on the announced amounts. *)
Lemma run_eaten (actions : list Action) : forall s s0,
  planned_meal s = planned_meal s0 ->
  map fst (fst (run dopri5 actions s)) = fst (announce_all (map CHO actions) s0)
  /\ planned_meal (snd (run dopri5 actions s))
     = planned_meal (snd (announce_all (map CHO actions) s0)).
Proof.
  induction actions as [| a rest IH]; intros s s0 Hpm;
    cbn [run map announce_all].
  - cbn. split; [reflexivity | exact Hpm].
  - destruct (step_fields dopri5 a s) as (Hpm1 & Hla & _).
    cbv zeta in Hpm1, Hla.
    destruct (announce_meal_eq (CHO a) s) as [Heat Hleft].
    destruct (announce_meal_eq (CHO a) s0) as [Heat0 Hleft0].
    cbv zeta in Heat, Hleft, Heat0, Hleft0.
    rewrite Hpm in Heat, Hleft. rewrite <- Heat0 in Heat.
    rewrite <- Hleft0 in Hleft.
    destruct (_announce_meal (CHO a) s0) as [e0 s1]. cbn [fst snd] in *.
    specialize (IH (after_step dopri5 a s) s1 ltac:(congruence)).
    destruct (run dopri5 rest (after_step dopri5 a s)) as [tr s2].
    destruct (announce_all (map CHO rest) s1) as [eaten s3].
    cbn [fst snd map] in *. destruct IH as [-> ->].
    rewrite Hla. cbn [CHO Action_replace_CHO]. rewrite Heat.
    split; reflexivity.
Qed.

End MealHistory.

Lemma meal_history_bounds_witness :
  let s := after_step dopri5_idle (mkAction (-3) 2) patient_ex in
  reachable dopri5_idle s /\
  0 <= CHO (_last_action s) <= EAT_RATE /\
  0 <= _last_foodtaken s /\
  (forall a, insulin (_last_action (after_step dopri5_idle a s)) = insulin a).
Proof.
  cbv zeta.
  assert (Hreach : reachable dopri5_idle
                     (after_step dopri5_idle (mkAction (-3) 2) patient_ex))
    by (apply reachable_step; apply reachable_init).
  split; [exact Hreach |].
  exact (meal_history_bounds dopri5_idle _ Hreach).
Defined.

(** X10.  The meal trace of a run does not depend on the integrator: the
    amounts eaten are those of the successive calls of [_announce_meal] on
    the announced amounts, two integrators give the same amounts and the
    same eating flags, and the amounts eaten plus the backlog left equal
    the backlog at the start plus everything announced. *)
Theorem run_meal_trace dopri5 dopri5' (actions : list Action) (s : self) :
  map fst (fst (run dopri5 actions s)) = fst (announce_all (map CHO actions) s)
  /\ fst (run dopri5' actions s) = fst (run dopri5 actions s)
  /\ Rsum (map fst (fst (run dopri5 actions s)))
     + planned_meal (snd (run dopri5 actions s))
     = planned_meal s + Rsum (map CHO actions).
Proof.
  destruct (run_eaten dopri5 actions s s eq_refl) as [He Hb].
  destruct (run_eaten dopri5' actions s s eq_refl) as [He' _].
  split; [exact He | split].
  - assert (Hfst : map fst (fst (run dopri5' actions s))
                   = map fst (fst (run dopri5 actions s))) by congruence.
    assert (Hsnd : map snd (fst (run dopri5' actions s))
                   = map snd (fst (run dopri5 actions s)))
      by (rewrite !run_flags, Hfst; reflexivity).
    revert Hfst Hsnd.
    generalize (fst (run dopri5 actions s)), (fst (run dopri5' actions s)).
    intros l. induction l as [| [x1 b1] l IH]; intros [| [x2 b2] l'];
      cbn; intros H1 H2; try discriminate; [reflexivity |].
    injection H1 as -> H1. injection H2 as -> H2. f_equal. apply IH; assumption.
  - rewrite He, Hb. apply announce_all_balance.
Qed.

(** X11.  How a step moves the meal history the right-hand side reads.
    When an episode starts (something is eaten and the previous amount was
    not positive), [_last_Qsto] is the stomach content [state[0] + state[1]]
    before the integration and [_last_foodtaken] restarts at the amount
    eaten.  Within an episode [_last_Qsto] is kept and [_last_foodtaken]
    grows by the amount eaten.  A step that eats nothing outside an episode
    leaves both unchanged. *)
Theorem meal_history_update dopri5 (a : Action) (s : self) :
  let eaten := fst (_announce_meal (CHO a) s) in
  let previous := CHO (_last_action s) in
  let s' := after_step dopri5 a s in
  (eaten > 0 -> previous <= 0 ->
     _last_Qsto s' = idx (state s) 0 + idx (state s) 1 /\
     _last_foodtaken s' = eaten /\ is_eating s' = true) /\
  (previous > 0 -> is_eating s = true ->
     _last_Qsto s' = _last_Qsto s /\
     _last_foodtaken s' = _last_foodtaken s + eaten) /\
  (eaten <= 0 -> is_eating s = false ->
     _last_Qsto s' = _last_Qsto s /\
     _last_foodtaken s' = _last_foodtaken s /\ is_eating s' = false).
Proof.
  cbv zeta.
  destruct (step_fields dopri5 a s) as (_ & _ & Hie & Hq & Hft & _).
  cbv zeta in Hie, Hq, Hft. rewrite Hie, Hq, Hft.
  split; [| split].
  - intros H1 H2.
    rewrite (gt_b_true _ _ H1), (le_b_true _ _ H2), (le_b_false _ _ H1).
    cbn. repeat split. lra.
  - intros H1 H2. rewrite (le_b_false _ _ H1), andb_false_r, H2.
    split; reflexivity.
  - intros H1 H2. rewrite (gt_b_false _ _ H1), H2. cbn.
    destruct (le_b _ 0 && gt_b _ 0); repeat split.
Qed.

(** A non-negative amount announced on an empty backlog. *)
Lemma announce_on_empty (meal : R) (s : self) :
  planned_meal s = 0 -> 0 <= meal ->
  fst (_announce_meal meal s) = Rmin EAT_RATE meal /\
  planned_meal (snd (_announce_meal meal s)) = Rmax 0 (meal - EAT_RATE).
Proof.
  intros Hz Hm. destruct (announce_meal_eq meal s) as [-> ->]. cbv zeta.
  rewrite Hz. unfold EAT_RATE.
  destruct (gt_b_spec (0 + meal) 0) as [H | H];
    unfold Rmin, Rmax;
    repeat match goal with |- context [Rle_dec ?a ?b] =>
             destruct (Rle_dec a b) end;
    split; lra.
Qed.

Lemma announce_single_meal (meal : R) (k : nat) (s : self) :
  planned_meal s = 0 -> 0 <= meal ->
  fst (announce_all (meal :: repeat 0 k) s)
  = map (fun i => Rmin EAT_RATE (Rmax 0 (meal - EAT_RATE * INR i)))
        (seq 0 (S k)).
Proof.
  intros Hz Hm. cbn [announce_all].
  destruct (announce_on_empty meal s Hz Hm) as [Heat Hleft].
  destruct (_announce_meal meal s) as [e s1]. cbn [fst snd] in Heat, Hleft.
  assert (Hs1 : 0 <= planned_meal s1) by (rewrite Hleft; apply Rmax_l).
  destruct (announce_zero_drain k s1 Hs1) as [He _].
  destruct (announce_all (repeat 0 k) s1) as [eaten s2]. cbn [fst] in *.
  rewrite He, Heat. cbn [seq map]. rewrite <- seq_shift, map_map. f_equal.
  - cbn [INR]. rewrite Rmult_0_r, Rminus_0_r, (Rmax_right 0) by exact Hm.
    reflexivity.
  - apply map_ext. intro i. rewrite Hleft, drain_shift. reflexivity.
Qed.

(** When the flag agrees with the previous amount, the flags along a
    sequence of eaten amounts are their signs. *)
Lemma episode_flags_sign (eaten : list R) : forall previous,
  episode_flags (episode_of (gt_b previous 0)) previous eaten
  = map (fun e => gt_b e 0) eaten.
Proof.
  induction eaten as [| now rest IH]; intro previous; cbn [episode_flags map].
  - reflexivity.
  - assert (Hflag : episode_flag (episode_next (episode_of (gt_b previous 0))
                                               previous now) = gt_b now 0).
    { rewrite episode_next_flag, !le_b_negb_gt_b.
      destruct (gt_b now 0), (gt_b previous 0); reflexivity. }
    rewrite Hflag. f_equal.
    rewrite <- (episode_of_flag (episode_next _ previous now)), Hflag.
    apply IH.
Qed.

Lemma eaten_sign (meal : R) (i : nat) :
  gt_b (Rmin EAT_RATE (Rmax 0 (meal - EAT_RATE * INR i))) 0
  = gt_b (meal - EAT_RATE * INR i) 0.
Proof.
  unfold EAT_RATE.
  destruct (gt_b_spec (meal - 5 * INR i) 0) as [H | H].
  - apply gt_b_true. rewrite Rmax_right by lra.
    unfold Rmin. destruct (Rle_dec 5 _); lra.
  - apply gt_b_false. rewrite Rmax_left by lra.
    rewrite Rmin_right; lra.
Qed.

(** X12.  One meal.  After [reset], when a non-negative amount [m] is
    announced in one step and nothing in the [k] steps after it, step
    [i] (counted from 0) eats [min(EAT_RATE, max(0, m - EAT_RATE * i))] and
    [is_eating] is true at exactly the steps with [EAT_RATE * i < m]: an
    80 g meal is eaten 5 g at a time over 16 steps.  The insulin doses and
    the integrator play no part. *)
Theorem single_meal_episode dopri5 (m : R) (k : nat)
    (actions : list Action) (s : self) :
  0 <= m ->
  map CHO actions = m :: repeat 0 k ->
  map fst (fst (run dopri5 actions (reset s)))
  = map (fun i => Rmin EAT_RATE (Rmax 0 (m - EAT_RATE * INR i))) (seq 0 (S k))
  /\
  map snd (fst (run dopri5 actions (reset s)))
  = map (fun i => gt_b (m - EAT_RATE * INR i) 0) (seq 0 (S k)).
Proof.
  intros Hm Hcho.
  assert (Heaten : map fst (fst (run dopri5 actions (reset s)))
    = map (fun i => Rmin EAT_RATE (Rmax 0 (m - EAT_RATE * INR i)))
          (seq 0 (S k))).
  { rewrite (proj1 (run_eaten dopri5 actions (reset s) (reset s) eq_refl)).
    rewrite Hcho. apply announce_single_meal; [reflexivity | exact Hm]. }
  split; [exact Heaten |].
  rewrite run_flags, Heaten.
  change (is_eating (reset s)) with false.
  change (CHO (_last_action (reset s))) with 0.
  replace false with (gt_b 0 0) by (apply gt_b_false; lra).
  rewrite episode_flags_sign, map_map.
  apply map_ext. intro i. apply eaten_sign.
Qed.

Lemma single_meal_episode_witness :
  let actions := [mkAction 80 14; mkAction 0 1; mkAction 0 1] in
  0 <= 80 /\
  map CHO actions = 80 :: repeat 0 2 /\
  map fst (fst (run dopri5_idle actions (reset patient_ex)))
  = map (fun i => Rmin EAT_RATE (Rmax 0 (80 - EAT_RATE * INR i))) (seq 0 3)
  /\
  map snd (fst (run dopri5_idle actions (reset patient_ex)))
  = map (fun i => gt_b (80 - EAT_RATE * INR i) 0) (seq 0 3).
Proof.
  cbv zeta.
  assert (Hm : 0 <= 80) by lra.
  assert (Hcho : map CHO [mkAction 80 14; mkAction 0 1; mkAction 0 1]
                 = 80 :: repeat 0 2) by reflexivity.
  split; [exact Hm | split; [exact Hcho |]].
  exact (single_meal_episode dopri5_idle 80 2
           [mkAction 80 14; mkAction 0 1; mkAction 0 1] patient_ex Hm Hcho).
Defined.

(** ** Further properties of [model] *)


Section ModelProperties.

Variables (tm : R) (x : list R) (action : Action) (params : Params.t).
Variables (last_Qsto last_foodtaken : R).

Let L := model_locals tm x action params last_Qsto last_foodtaken.
Let out := model tm x action params last_Qsto last_foodtaken.

(** X13.  Glucose in the gut is conserved: the derivatives of stomach
    solid, stomach liquid and intestine add up to the carbohydrate eaten
    (in mg) less what the intestine absorbs, whatever the emptying rate
    [kgut]. *)
Theorem model_gut_balance :
  idx out 0 + idx out 1 + idx out 2
  = CHO action * 1000 - Params.kabs params * idx x 2.
Proof.
  subst out. unfold model.
  cbn [dxdt model_locals idx nth].
  fold (idx x 0) (idx x 1) (idx x 2).
  match goal with |- context [if ?c then ?u else ?v] =>
    generalize (if c then u else v) end.
  intro k. ring.
Qed.

(** X14.  Renal excretion is [ke1] times the excess of plasma glucose
    over the threshold [ke2]: zero up to the threshold and, for a
    non-negative [ke1], never negative. *)
Theorem model_renal_excretion :
  Et L = Params.ke1 params * Rmax (idx x 3 - Params.ke2 params) 0 /\
  (idx x 3 <= Params.ke2 params -> Et L = 0) /\
  (0 <= Params.ke1 params -> 0 <= Et L).
Proof.
  assert (Heq : Et L = Params.ke1 params
                       * Rmax (idx x 3 - Params.ke2 params) 0).
  { subst L. cbn [Et model_locals].
    destruct (gt_b_spec (idx x 3) (Params.ke2 params)) as [H | H].
    - rewrite Rmax_left by lra. reflexivity.
    - rewrite Rmax_right by lra. lra. }
  split; [exact Heq | split].
  - intro H. rewrite Heq, Rmax_right by lra. lra.
  - intro H. rewrite Heq. apply Rmult_le_pos; [exact H | apply Rmax_r].
Qed.

(** X15.  The dynamic glucagon secretion is [kGSRd] times the positive
    part of minus the returned plasma glucose derivative over [Vg]: it
    vanishes when plasma glucose is negative (the derivative is clamped to
    0) and, for positive [Vg], whenever plasma glucose is not falling; for a
    non-negative [kGSRd] it is never negative. *)
Theorem model_glucagon_dynamic_secretion :
  SRd L = Params.kGSRd params * Rmax (- idx out 3 / Params.Vg params) 0 /\
  SRt L = idx x 15 + SRd L /\
  (idx x 3 < 0 -> SRd L = 0) /\
  (0 < Params.Vg params -> 0 <= idx out 3 -> SRd L = 0) /\
  (0 <= Params.kGSRd params -> 0 <= SRd L).
Proof.
  assert (Heq : SRd L = Params.kGSRd params
                        * Rmax (- idx out 3 / Params.Vg params) 0).
  { subst L out. unfold model. cbn [SRd dxdt model_locals idx nth].
    rewrite (py_max_Rmax (- _ / _) 0). reflexivity. }
  split; [exact Heq | split; [reflexivity | split; [| split]]].
  - intro H. rewrite Heq.
    assert (H3 : idx out 3 = 0).
    { subst out. unfold model. cbn [dxdt model_locals idx nth].
      fold (idx x 3). rewrite (ge_b_false _ _ H). cbn [bool_to_R]. lra. }
    rewrite H3. unfold Rdiv. rewrite Ropp_0, Rmult_0_l, Rmax_left by lra. lra.
  - intros HVg H. rewrite Heq.
    assert (Hle : - idx out 3 / Params.Vg params <= 0).
    { unfold Rdiv. pose proof (Rinv_0_lt_compat _ HVg). nra. }
    rewrite Rmax_right by exact Hle. lra.
  - intro H. rewrite Heq. apply Rmult_le_pos; [exact H | apply Rmax_r].
Qed.

(** X16.  Inputs enter one equation each: the carbohydrate only the
    stomach solid derivative [dxdt[0]] and the insulin only the first
    subcutaneous insulin derivative [dxdt[10]].  Any two actions give the
    same derivative at every other index. *)
Theorem model_inputs_local (action' : Action) (i : nat) :
  i <> 0%nat -> i <> 10%nat ->
  idx (model tm x action' params last_Qsto last_foodtaken) i = idx out i.
Proof.
  intros H0 H10. subst out. unfold model.
  do 18 (destruct i as [| i]; [first [contradiction | reflexivity] |]).
  destruct i; reflexivity.
Qed.

End ModelProperties.

Lemma model_inputs_local_witness :
  3%nat <> 0%nat /\ 3%nat <> 10%nat /\
  idx (model 0 (repeat 1 18) (mkAction 5 2) params_ex 1 0) 3
  = idx (model 0 (repeat 1 18) (mkAction 0 0) params_ex 1 0) 3.
Proof.
  assert (H0 : 3%nat <> 0%nat) by discriminate.
  assert (H10 : 3%nat <> 10%nat) by discriminate.
  split; [exact H0 | split; [exact H10 |]].
  exact (model_inputs_local 0 (repeat 1 18) (mkAction 0 0) params_ex 1 0
                            (mkAction 5 2) 3 H0 H10).
Defined.

Section RiskAndSecretion.

Variables (tm : R) (x : list R) (action : Action) (params : Params.t).
Variables (last_Qsto last_foodtaken : R).

Let L := model_locals tm x action params last_Qsto last_foodtaken.
Let Gth := Params.Gth params.
Let Gb := Params.Gb params.
Let r1 := Params.r1 params.



(** X18.  The static glucagon secretion below the insulin threshold: for
    [It = x[5] / Vi] at or below [Ith] the derivative first assigned to
    [dxdt[15]] is [-r2 * (x[15] - max(kGSRs * (Gth - Gt) + SRb, 0))]; at
    [It = Ith] the branch with the division gives the same value, so the
    switch has no jump. *)
Theorem model_glucagon_static_below_threshold :
  It L <= Params.Ith params ->
  It L = idx x 5 / Params.Vi params /\
  idx (raw L) 15
  = - Params.r2 params
    * (idx x 15
       - Rmax (Params.kGSRs params * (Gth - Gt L) + Params.SRb params) 0).
Proof.
  intro Hle. split; [reflexivity |].
  subst L Gth. cbn [raw It Gt model_locals idx nth] in *.
  fold (idx x 15) (idx x 5) (idx x 3).
  set (I := idx x 5 / Params.Vi params) in *.
  unfold ge_b. destruct (Rge_dec I (Params.Ith params)) as [H | H];
    rewrite py_max_Rmax; [| reflexivity].
  assert (HI : I = Params.Ith params) by lra.
  rewrite HI. replace (Params.Ith params - Params.Ith params + 1) with 1 by lra.
  rewrite Rdiv_1_r. reflexivity.
Qed.

End RiskAndSecretion.


Lemma model_glucagon_static_below_threshold_witness :
  let L := model_locals 0 (repeat 0 18) (mkAction 0 0) params_ex 0 0 in
  It L <= Params.Ith params_ex /\
  It L = idx (repeat 0 18) 5 / Params.Vi params_ex /\
  idx (raw L) 15
  = - Params.r2 params_ex
    * (idx (repeat 0 18) 15
       - Rmax (Params.kGSRs params_ex * (Params.Gth params_ex - Gt L)
               + Params.SRb params_ex) 0).
Proof.
  cbv zeta.
  assert (Hle : It (model_locals 0 (repeat 0 18) (mkAction 0 0) params_ex 0 0)
                <= Params.Ith params_ex) by (cbn; lra).
  split; [exact Hle |].
  exact (model_glucagon_static_below_threshold 0 (repeat 0 18) (mkAction 0 0)
           params_ex 0 0 Hle).
Defined.

(** ** The observation *)

(** X19.  The observation is the subcutaneous glucose [state[12]] over
    [Vg]: not negative when [state[12]] is not and [Vg] is positive; after
    [reset] it is read off [init_state]; announcing a meal does not change
    it, nor does a step that raises. *)
Theorem observation_reads_subcutaneous_glucose dopri5
    (a : Action) (s : self) :
  Gsub (observation s) = idx (state s) 12 / Params.Vg (_params s) /\
  (0 < Params.Vg (_params s) -> 0 <= idx (state s) 12 ->
   0 <= Gsub (observation s)) /\
  Gsub (observation (reset s)) = idx (init_state s) 12 / Params.Vg (_params s)
  /\
  observation (snd (_announce_meal (CHO a) s)) = observation s /\
  (successful (_odesolver s) = false ->
   observation (after_step dopri5 a s) = observation s).
Proof.
  split; [reflexivity | split; [| split; [reflexivity | split]]].
  - intros HVg H12. cbn [Gsub observation]. unfold Rdiv.
    apply Rmult_le_pos; [exact H12 |].
    left. apply Rinv_0_lt_compat. exact HVg.
  - destruct (announce_meal_frame (CHO a) s)
      as (Hp & _ & _ & _ & _ & _ & Ho & _).
    unfold observation, state. rewrite Hp, Ho. reflexivity.
  - intro Hfail.
    destruct (step_failed dopri5 a s Hfail) as [_ Hsolver].
    destruct (step_fields dopri5 a s) as (_ & _ & _ & _ & _ & Hp & _).
    cbv zeta in Hsolver, Hp.
    unfold observation, state. rewrite Hp, Hsolver. reflexivity.
Qed.

(** ** Construction *)

(** X20.  A constructed patient is what [reset] restores.  The
    constructor takes the initial state from the parameter row when none
    is given, starts at [t0] with an empty backlog, not eating, on a
    working integrator; [reset] leaves a fresh patient as it is, and after
    any sequence of steps brings it back to exactly the constructed
    object. *)
Theorem constructed_patient_is_reset_point dopri5 (params : Params.t)
    (init : option (list R)) (start : R) (actions : list Action) :
  let p := __init__ params init start in
  state p = match init with
            | None => Params.iloc_1_19 params
            | Some v => v
            end /\
  t p = start /\ planned_meal p = 0 /\ is_eating p = false /\
  successful (_odesolver p) = true /\ name p = Params.Name params /\
  reset p = p /\
  reset (snd (run dopri5 actions p)) = p.
Proof.
  cbv zeta.
  assert (Hfix : reset (__init__ params init start) = __init__ params init start)
    by (unfold __init__; apply reset_ext; reflexivity).
  repeat (split; [reflexivity |]).
  destruct (run_keeps_configuration dopri5 actions
              (__init__ params init start)) as (Hp & Hi & Ht).
  cbv zeta in Hp, Hi, Ht.
  rewrite <- Hfix at 2. apply reset_ext; assumption.
Qed.
